(** * Delta / differential loading: [delta_loader.py]

    A shallow embedding of the change detector ([DeltaLoader.detect_changes]),
    the fingerprinting helpers and the staging loader
    ([DeltaLoader.load_delta_to_staging]), with the properties the
    specification states about them.

    Conventions of the embedding.
    - A CSV file is read with [dtype=object], so a cell is either a string or
      the missing value NaN.  Strings are UTF-8 byte strings; comparing them
      bytewise is comparing Python strings by code point.
    - A pandas [Series] (one row) is the list of its (label, value) items; a
      [DataFrame] is its column index together with its rows.
    - Python exceptions are values of [exn]; a computation that may raise
      returns a [result].
    - Python sets of keys are [gset string]; iterating over such a set walks
      [elements], an order the theorems never depend on.
    - Library functions whose code is not part of the repository (the [repr]
      of a [str], MD5, [pandas.util.hash_pandas_object]) are section
      variables.
    - The staging table lives in the PostgreSQL database behind
      [PostgreSQLManager] ([core/connection_manager.py]), whose pool hands
      out psycopg2 connections; whether the server runs a statement the
      loader sends is a section variable too. *)

From Stdlib Require Import ZArith Ascii String OrdersEx DecimalString.
From stdpp Require Import base list sorting gmap strings.

Open Scope string_scope.

(** ** Exceptions and the error monad *)

Inductive exn :=
  | FileNotFoundError (path : string)
  | ValueError (missing_cols : gset string)
  | KeyError (key : string)
  | IndexError
  | TypeError
  | DatabaseError       (* pandas.errors.DatabaseError *)
  | Psycopg2Error.      (* psycopg2.Error, raised by cursor.execute *)

Inductive result (A : Type) :=
  | Ok (a : A)
  | Raise (e : exn).
Arguments Ok {A} a.
Arguments Raise {A} e.

#[global] Instance result_ret : MRet result := λ A a, Ok a.
#[global] Instance result_bind : MBind result := λ A B f m,
  match m with
  | Ok a => f a
  | Raise e => Raise e
  end.
#[global] Instance result_fmap : FMap result := λ A B f m,
  match m with
  | Ok a => Ok (f a)
  | Raise e => Raise e
  end.

(** Code with effects on a store of type [S]: the state store of the detector,
    the staging table of the loader.  An exception keeps the writes made so
    far. *)
Definition Eff (S A : Type) : Type := S → result A * S.

#[global] Instance eff_ret {S} : MRet (Eff S) := λ A a s, (Ok a, s).
#[global] Instance eff_bind {S} : MBind (Eff S) := λ A B f m s,
  match m s with
  | (Ok a, s') => f a s'
  | (Raise e, s') => (Raise e, s')
  end.

Definition lift {S A} (r : result A) : Eff S A := λ s, (r, s).
Definition raise {S A} (e : exn) : Eff S A := lift (Raise e).

(** [xs[0]] / [xs.iloc[0]] *)
Definition iloc0 {A} (xs : list A) : result A :=
  match xs with
  | [] => Raise IndexError
  | x :: _ => Ok x
  end.

(** ** Cells, rows and data frames *)

Inductive cell :=
  | NaN
  | Str (s : string).

#[global] Instance cell_eq_dec : EqDecision cell.
Proof. solve_decision. Defined.

(** [Series.astype(str)] on an object column: NaN becomes the text nan. *)
Definition astype_str (c : cell) : string :=
  match c with
  | NaN => "nan"
  | Str s => s
  end.

(** A row as [Series.items()] yields it. *)
Definition Row : Type := list (string * cell).

Definition labels (r : Row) : list string := r.*1.

Record DataFrame := mkDataFrame {
  columns : list string;
  rows : list Row
}.

(** [len(df)] *)
Definition len (df : DataFrame) : nat := length (rows df).

(** [pd.DataFrame(columns=cols)] *)
Definition empty_frame (cols : list string) : DataFrame :=
  {| columns := cols; rows := [] |}.

(** [row[label]], with a default for a label the row does not carry; a
    well-formed row carries every column of its frame. *)
Fixpoint row_get {V} (d : V) (r : list (string * V)) (label : string) : V :=
  match r with
  | [] => d
  | (l, v) :: r' => if String.eqb l label then v else row_get d r' label
  end.

(** [row[label] = v]: overwrite the item if the label exists, append it
    otherwise. *)
Fixpoint row_set {V} (r : list (string * V)) (label : string) (v : V)
    : list (string * V) :=
  match r with
  | [] => [(label, v)]
  | (l, w) :: r' =>
      if String.eqb l label then (l, v) :: r' else (l, w) :: row_set r' label v
  end.

Definition has_column (df : DataFrame) (c : string) : bool :=
  bool_decide (c ∈ columns df).

(** [df[c]]: the values of column [c], KeyError for an unknown column. *)
Definition get_col (df : DataFrame) (c : string) : result (list cell) :=
  if has_column df c then Ok ((λ r, row_get NaN r c) <$> rows df)
  else Raise (KeyError c).

(** [df[c] = vals] *)
Definition set_col (df : DataFrame) (c : string) (vals : list cell) : DataFrame :=
  {| columns := if has_column df c then columns df else columns df ++ [c];
     rows := zip_with (λ r v, row_set r c v) (rows df) vals |}.

(** [xs[mask]]: the entries whose mask entry is true. *)
Fixpoint select {A} (xs : list A) (mask : list bool) : list A :=
  match xs, mask with
  | x :: xs', b :: mask' =>
      if b then x :: select xs' mask' else select xs' mask'
  | _, _ => []
  end.

(** [df[mask]]: the selected rows, same columns. *)
Definition boolean_index (df : DataFrame) (mask : list bool) : DataFrame :=
  {| columns := columns df; rows := select (rows df) mask |}.

(** [pd.concat(frames, ignore_index=True)] for frames over one column index
    (the only use the loader makes of it): the rows in sequence. *)
Definition pd_concat (frames : list DataFrame) : DataFrame :=
  {| columns := match frames with
                | [] => []
                | df :: _ => columns df
                end;
     rows := concat (rows <$> frames) |}.

(** [pd.read_csv(path, dtype=object)] over a file system that maps a path to
    the table stored there. *)
Definition read_csv (fs : gmap string DataFrame) (path : string)
    : result DataFrame :=
  match fs !! path with
  | Some df => Ok df
  | None => Raise (FileNotFoundError path)
  end.

(** ** State of the last load *)

Module LoadState.
Record t := mk {
  entity_type : string;
  last_load_timestamp : Z;
  last_csv_path : string;
  last_row_count : nat;
  last_data_fingerprint : string;
  column_schema : list string;
  primary_keys : list string;
  metadata : list (string * nat)
}.

(** [LoadState.save]: one state file per entity type, overwritten.  The
    file is [state_dir / f"{entity_type}_load_state.json"]; entity types are
    plain names, as the values of [EntityType] are, so that distinct types
    have distinct files. *)
Definition save (st : t) : Eff (gmap string t) unit :=
  λ store, (Ok tt, <[entity_type st := st]> store).

(** [LoadState.load] *)
Definition load (entity : string) (store : gmap string t) : option t :=
  store !! entity.
End LoadState.

Module DeltaResult.
Record t := mk {
  entity_type : string;
  new_records : DataFrame;
  modified_records : DataFrame;
  deleted_record_ids : list string;
  unchanged_record_ids : list string;
  detection_timestamp : Z
}.

(** [DeltaResult.has_changes] *)
Definition has_changes (d : t) : bool :=
  (0 <? len (new_records d))%nat
  || (0 <? len (modified_records d))%nat
  || (0 <? length (deleted_record_ids d))%nat.
End DeltaResult.

(** The loader object: what [__init__] stores in [self]. *)
Module DeltaLoader.
Record t := mk {
  entity_type : string;
  primary_keys : list string;
  previous_state : option LoadState.t
}.

(** [DeltaLoader.__init__]: the previous state is read once, here. *)
Definition init (entity : string) (pks : list string)
    (store : gmap string LoadState.t) : t :=
  {| entity_type := entity;
     primary_keys := pks;
     previous_state := LoadState.load entity store |}.
End DeltaLoader.

(** ** The staging table *)

Inductive sqlval :=
  | SqlNull
  | SqlText (s : string)
  | SqlBool (b : bool)
  | SqlTimestamp (t : Z).

#[global] Instance sqlval_eq_dec : EqDecision sqlval.
Proof. solve_decision. Defined.

Definition StagedRow : Type := list (string * sqlval).

(** A cell as a value of the database: NaN is NULL. *)
Definition to_sql_cell (c : cell) : sqlval :=
  match c with
  | NaN => SqlNull
  | Str s => SqlText s
  end.

(** The statements the loader sends through a cursor. *)
Inductive stmt :=
  | DeleteWhereAny (pk_col : string) (ids : list cell)
      (* DELETE FROM t WHERE pk_col = ANY(ids) *)
  | SoftDeleteWhereAny (pk_col : string) (ts : Z) (ids : list cell).
      (* UPDATE t SET _is_deleted = TRUE, _load_timestamp = ts,
         _load_type = 'delete' WHERE pk_col = ANY(ids) *)

(** The condition of a statement: the column and the ids. *)
Definition where_col (s : stmt) : string :=
  match s with
  | DeleteWhereAny pk_col _ => pk_col
  | SoftDeleteWhereAny pk_col _ _ => pk_col
  end.

Definition where_ids (s : stmt) : list cell :=
  match s with
  | DeleteWhereAny _ ids => ids
  | SoftDeleteWhereAny _ _ ids => ids
  end.

(** [v = ANY(ids)]: true for a text equal to one of the ids; NULL equals
    nothing. *)
Definition eq_any (v : sqlval) (ids : list cell) : bool :=
  match v with
  | SqlText s => bool_decide (Str s ∈ ids)
  | _ => false
  end.

Definition mark_deleted (ts : Z) (r : StagedRow) : StagedRow :=
  row_set (row_set (row_set r "_is_deleted" (SqlBool true))
                   "_load_timestamp" (SqlTimestamp ts))
          "_load_type" (SqlText "delete").

(** What a statement the server runs does to the rows of the table. *)
Definition exec_stmt (s : stmt) (tbl : list StagedRow) : list StagedRow :=
  match s with
  | DeleteWhereAny pk_col ids =>
      filter (λ r, eq_any (row_get SqlNull r pk_col) ids = false) tbl
  | SoftDeleteWhereAny pk_col ts ids =>
      (λ r, if eq_any (row_get SqlNull r pk_col) ids
            then mark_deleted ts r else r) <$> tbl
  end.

(** The staging store: the committed rows of the staging table and the
    statements the loader has sent to the server so far. *)
Record Staging := mkStaging {
  table : list StagedRow;
  executed : list stmt
}.

(** [df.to_sql(name, conn, schema=..., if_exists=..., index=False,
    method='multi')] with a connection of the pool.  pandas writes through
    an SQLAlchemy connectable or a sqlite3 connection; any other DBAPI
    connection, as the psycopg2 connection here, it drives as sqlite3.  Its
    first query, whether the table exists, asks [sqlite_master] with a [?]
    parameter: the query fails, pandas rolls the connection back and raises
    DatabaseError.  No row is written, whatever the frame and the mode. *)
Definition to_sql (if_exists : string) (rs : list StagedRow) : Eff Staging unit :=
  λ db, (Raise DatabaseError, db).

(** [with self.pg_manager.get_connection() as conn: body]: the body works in
    one transaction of the connection.  The blocks that send a statement end
    in [conn.commit()]; an exception leaves the block before the commit,
    and the connection goes back to the pool, which rolls it back: the rows
    are those of the last commit, the statements were sent all the same. *)
Definition with_connection {A} (body : Eff Staging A) : Eff Staging A :=
  λ db,
    match body db with
    | (Ok a, db') => (Ok a, db')
    | (Raise e, db') =>
        (Raise e, {| table := table db; executed := executed db' |})
    end.

(** ** Strings as Python orders them *)

Definition str_lt (a b : string) : bool :=
  match String_as_OT.compare a b with
  | Lt => true
  | _ => false
  end.

(** [a < b] on two items of [row.items()].  Tuples compare by their first
    differing component: the labels, and for equal labels the values, where
    ordering a string against NaN (a float) raises TypeError. *)
Definition tuple_lt (a b : string * cell) : result bool :=
  if String.eqb a.1 b.1 then
    match a.2, b.2 with
    | Str x, Str y => Ok (str_lt x y)
    | NaN, NaN => Ok false
    | _, _ => Raise TypeError
    end
  else Ok (str_lt a.1 b.1).

(** [sorted(items)] as a stable insertion sort that only asks [<]. *)
Fixpoint insert_sorted (x : string * cell) (l : Row) : result Row :=
  match l with
  | [] => Ok [x]
  | y :: l' =>
      lt ← tuple_lt y x;
      if (lt : bool) then (cons y) <$> insert_sorted x l' else Ok (x :: y :: l')
  end.

Fixpoint sorted (l : Row) : result Row :=
  match l with
  | [] => Ok []
  | x :: l' => s ← sorted l'; insert_sorted x s
  end.

Definition meta_columns : list string :=
  ["_load_timestamp"; "_load_type"; "_is_deleted"].

(** ** Sample data: the scenario of a pure addition, and a staged row *)

Definition addition_previous : DataFrame :=
  {| columns := ["id"; "name"];
     rows := [[("id", Str "1"); ("name", Str "A")]] |}.

Definition addition_current : DataFrame :=
  {| columns := ["id"; "name"];
     rows := [[("id", Str "1"); ("name", Str "A")];
              [("id", Str "2"); ("name", Str "B")]] |}.

Definition addition_fs : gmap string DataFrame :=
  <["previous.csv" := addition_previous]>
    (<["current.csv" := addition_current]> ∅).

(** Stand-ins for the library functions, to run the model on the sample data:
    the [repr] of a string without quotes, backslashes or control characters,
    the identity for the digest, the number of fields for the hash of a row.
    No theorem depends on what they compute. *)
Definition sample_repr (s : string) : string := "'" ++ s ++ "'".
Definition sample_md5 (s : string) : string := s.
Definition sample_hash (df : DataFrame) : list Z :=
  (λ r : Row, Z.of_nat (length r)) <$> rows df.

(** A state left by a run over [previous.csv], and loaders that found it. *)
Definition sample_state : LoadState.t :=
  {| LoadState.entity_type := "entity";
     LoadState.last_load_timestamp := 1;
     LoadState.last_csv_path := "previous.csv";
     LoadState.last_row_count := 1;
     LoadState.last_data_fingerprint := "2";
     LoadState.column_schema := ["id"; "name"];
     LoadState.primary_keys := ["id"];
     LoadState.metadata := [] |}.

Definition sample_store : gmap string LoadState.t :=
  <["entity" := sample_state]> ∅.

Definition sample_loader : DeltaLoader.t :=
  DeltaLoader.init "entity" ["id"] sample_store.

(** The delta of the pure addition. *)
Definition addition_delta : DeltaResult.t :=
  {| DeltaResult.entity_type := "entity";
     DeltaResult.new_records :=
       {| columns := ["id"; "name"];
          rows := [[("id", Str "2"); ("name", Str "B")]] |};
     DeltaResult.modified_records := empty_frame ["id"; "name"];
     DeltaResult.deleted_record_ids := [];
     DeltaResult.unchanged_record_ids := ["1"];
     DeltaResult.detection_timestamp := 2 |}.

(** A delta without changes, and deltas that only delete one key. *)
Definition unchanged_delta : DeltaResult.t :=
  {| DeltaResult.entity_type := "entity";
     DeltaResult.new_records := empty_frame ["id"; "name"];
     DeltaResult.modified_records := empty_frame ["id"; "name"];
     DeltaResult.deleted_record_ids := [];
     DeltaResult.unchanged_record_ids := ["1"];
     DeltaResult.detection_timestamp := 2 |}.

Definition deletion_delta (cols : list string) (key : string) : DeltaResult.t :=
  {| DeltaResult.entity_type := "entity";
     DeltaResult.new_records := empty_frame cols;
     DeltaResult.modified_records := empty_frame cols;
     DeltaResult.deleted_record_ids := [key];
     DeltaResult.unchanged_record_ids := [];
     DeltaResult.detection_timestamp := 2 |}.

Definition insertion_delta (cols : list string) (r : Row) : DeltaResult.t :=
  {| DeltaResult.entity_type := "entity";
     DeltaResult.new_records := {| columns := cols; rows := [r] |};
     DeltaResult.modified_records := empty_frame cols;
     DeltaResult.deleted_record_ids := [];
     DeltaResult.unchanged_record_ids := [];
     DeltaResult.detection_timestamp := 1 |}.

Definition empty_staging : Staging := {| table := []; executed := [] |}.

(** A loader keyed by the two columns [a] and [b], and a row it identifies by
    the composite key 1_2. *)
Definition composite_loader : DeltaLoader.t :=
  {| DeltaLoader.entity_type := "entity";
     DeltaLoader.primary_keys := ["a"; "b"];
     DeltaLoader.previous_state := None |}.

Definition composite_row : Row := [("a", Str "1"); ("b", Str "2")].

(** Two staged rows, with the metadata columns of an insert at time 1. *)
Definition sample_staged_row : StagedRow :=
  [("id", SqlText "1"); ("name", SqlText "A");
   ("_load_timestamp", SqlTimestamp 1); ("_load_type", SqlText "insert");
   ("_is_deleted", SqlBool false)].

Definition composite_staged_row : StagedRow :=
  [("a", SqlText "1"); ("b", SqlText "2");
   ("_load_timestamp", SqlTimestamp 1); ("_load_type", SqlText "insert");
   ("_is_deleted", SqlBool false)].

Definition sample_staging : Staging :=
  {| table := [sample_staged_row]; executed := [] |}.

Definition composite_staging : Staging :=
  {| table := [composite_staged_row]; executed := [] |}.

(** A second staged row with the same value of [a]: (1, 3). *)
Definition composite_staged_row' : StagedRow :=
  [("a", SqlText "1"); ("b", SqlText "3");
   ("_load_timestamp", SqlTimestamp 1); ("_load_type", SqlText "insert");
   ("_is_deleted", SqlBool false)].

Definition composite_pair_staging : Staging :=
  {| table := [composite_staged_row; composite_staged_row']; executed := [] |}.

(** A server that has the key columns as text columns: it runs a statement
    whose ids are all text. *)
Definition sample_server (pk_col : string) (ids : list cell) : bool :=
  bool_decide (NaN ∉ ids).

(** ** The pipeline around the loader ([unified_pipeline.py]) *)

(** The fields of [EntityConfig] the two stages read. *)
Module EntityConfig.
Record t := mk {
  entity_type : string;          (* entity_type.value *)
  staging_table : string;
  schema : string;
  primary_keys : list string;
  columns : list string;
  enable_delta_loading : bool
}.
End EntityConfig.

(** The context dictionary the stages pass on; an absent entry is [None]. *)
Module Context.
Record t := mk {
  config : EntityConfig.t;
  cleaned_df : DataFrame;
  delta : option DeltaResult.t;
  loader : option DeltaLoader.t;
  load_df : option DataFrame;
  error : option exn
}.
End Context.

(** What the stages work on: the files, the state directory, the staging
    table, and the frames a full load was called with. *)
Record World := mkWorld {
  files : gmap string DataFrame;
  states : gmap string LoadState.t;
  staging : Staging;
  full_loads : list DataFrame
}.

(** [str(Path('temp') / f"{entity}_cleaned.csv")] *)
Definition temp_csv (entity : string) : string :=
  "temp/" ++ entity ++ "_cleaned.csv".

(** The rows of a frame as values of the database, without metadata
    columns. *)
Definition plain_rows (df : DataFrame) : list StagedRow :=
  (λ r : Row, prod_map id to_sql_cell <$> r) <$> rows df.

(** More sample data: a loader with a missing key column, deltas with
    modified records, a configuration of the pipeline. *)
Definition key_loader : DeltaLoader.t :=
  {| DeltaLoader.entity_type := "entity";
     DeltaLoader.primary_keys := ["key"];
     DeltaLoader.previous_state := Some sample_state |}.

Definition update_delta : DeltaResult.t :=
  {| DeltaResult.entity_type := "entity";
     DeltaResult.new_records := empty_frame ["id"; "name"];
     DeltaResult.modified_records :=
       {| columns := ["id"; "name"];
          rows := [[("id", Str "1"); ("name", Str "B")]] |};
     DeltaResult.deleted_record_ids := [];
     DeltaResult.unchanged_record_ids := [];
     DeltaResult.detection_timestamp := 2 |}.

Definition composite_update_delta : DeltaResult.t :=
  {| DeltaResult.entity_type := "entity";
     DeltaResult.new_records := empty_frame ["a"; "b"];
     DeltaResult.modified_records :=
       {| columns := ["a"; "b"];
          rows := [[("a", Str "1"); ("b", Str "2")]] |};
     DeltaResult.deleted_record_ids := [];
     DeltaResult.unchanged_record_ids := [];
     DeltaResult.detection_timestamp := 2 |}.

Definition composite_frame : DataFrame :=
  {| columns := ["a"; "b"; "c"];
     rows := [composite_row ++ [("c", Str "x")];
              composite_row ++ [("c", Str "y")]]%list |}.

Definition sample_config (delta_loading : bool) : EntityConfig.t :=
  {| EntityConfig.entity_type := "entity";
     EntityConfig.staging_table := "entity_staging";
     EntityConfig.schema := "staging";
     EntityConfig.primary_keys := ["id"];
     EntityConfig.columns := ["id"; "name"];
     EntityConfig.enable_delta_loading := delta_loading |}.

Definition sample_context (delta_loading : bool) (df : DataFrame) : Context.t :=
  {| Context.config := sample_config delta_loading;
     Context.cleaned_df := df;
     Context.delta := None;
     Context.loader := None;
     Context.load_df := None;
     Context.error := None |}.

Definition empty_world : World :=
  {| files := ∅; states := ∅; staging := empty_staging; full_loads := [] |}.

(** A world whose previous snapshot holds the rows (1, A) and (2, B). *)
Definition shrinking_world : World :=
  {| files := <["previous.csv" := addition_current]> ∅;
     states := sample_store;
     staging := sample_staging;
     full_loads := [] |}.

(** The delta when the row (2, B) is gone. *)
Definition shrinking_delta : DeltaResult.t :=
  {| DeltaResult.entity_type := "entity";
     DeltaResult.new_records := empty_frame ["id"; "name"];
     DeltaResult.modified_records := empty_frame ["id"; "name"];
     DeltaResult.deleted_record_ids := ["2"];
     DeltaResult.unchanged_record_ids := ["1"];
     DeltaResult.detection_timestamp := 2 |}.

(** The context the detection stage hands on in that world for the data
    (1, A). *)
Definition shrinking_context : Context.t :=
  {| Context.config := sample_config true;
     Context.cleaned_df := addition_previous;
     Context.delta := Some shrinking_delta;
     Context.loader := Some sample_loader;
     Context.load_df := Some (empty_frame ["id"; "name"]);
     Context.error := None |}.

Section Detection.

Set Default Proof Using "Type".

(** Library functions taken as given. *)
Variable py_repr_str : string → string.          (* repr(s) for a str *)
Variable md5_hexdigest : string → string.        (* hashlib.md5(s.encode()).hexdigest() *)
Variable hash_pandas_object : DataFrame → list Z.  (* pd.util.hash_pandas_object(df): a uint64 per row *)

(** Whether the server runs a statement with the condition
    [pk_col = ANY(ids)] on the staging table.  It refuses, for one, a column
    the table does not have, a column name that is not a plain identifier
    (the name is pasted into the statement unquoted), ids that are not
    text. *)
Variable where_accepted : string → list cell → bool.

(** [repr] of a cell and [str] of a list of 2-tuples. *)
Definition py_repr_cell (c : cell) : string :=
  match c with
  | NaN => "nan"
  | Str s => py_repr_str s
  end.

Definition py_repr_item (it : string * cell) : string :=
  "(" ++ py_repr_str it.1 ++ ", " ++ py_repr_cell it.2 ++ ")".

Definition py_str_items (l : Row) : string :=
  "[" ++ String.concat ", " (py_repr_item <$> l) ++ "]".

(** [DeltaLoader.compute_record_fingerprint] *)
Definition compute_record_fingerprint (row : Row) : result string :=
  s ← sorted row;
  Ok (md5_hexdigest (py_str_items s)).

(** [DeltaLoader.compute_dataset_fingerprint]: the uint64 sum of the row
    hashes (it wraps around), printed in decimal. *)
Definition uint64_sum (hs : list Z) : Z :=
  foldr (λ h acc, (h + acc) mod 2 ^ 64)%Z 0%Z hs.

Definition compute_dataset_fingerprint (df : DataFrame) : string :=
  NilZero.string_of_uint (N.to_uint (Z.to_N (uint64_sum (hash_pandas_object df)))).

(** [DeltaLoader.add_fingerprints] *)
Definition add_fingerprints (df : DataFrame) : result DataFrame :=
  fps ← mapM compute_record_fingerprint (rows df);
  Ok (set_col df "_record_fingerprint" (Str <$> (fps : list string))).

(** [make_composite_key], the local function of [detect_changes]. *)
Definition join_key (pks : list string) (r : Row) : string :=
  String.concat "_" ((λ pk, astype_str (row_get NaN r pk)) <$> pks).

Definition make_composite_key (self : DeltaLoader.t) (df : DataFrame)
    : result (list string) :=
  match DeltaLoader.primary_keys self with
  | [pk] => col ← get_col df pk; Ok (astype_str <$> (col : list cell))
  | pks => _ ← mapM (get_col df) pks; Ok (join_key pks <$> rows df)
  end.

(** The composite keys [detect_changes] gives to the rows of a snapshot: the
    column [_composite_key] it computes on the fingerprinted copy. *)
Definition snapshot_keys (self : DeltaLoader.t) (df : DataFrame)
    : result (list string) :=
  with_fp ← add_fingerprints df;
  make_composite_key self with_fp.

(** The same, one row at a time: the key of a row, the key of a row once
    fingerprinted, and the columns the key may be read from. *)
Definition row_key (pks : list string) (r : Row) : string :=
  match pks with
  | [pk] => astype_str (row_get NaN r pk)
  | _ => join_key pks r
  end.

Definition keyed_row (pks : list string) (r : Row) : result string :=
  fp ← compute_record_fingerprint r;
  Ok (row_key pks (row_set r "_record_fingerprint" (Str fp))).

Definition fp_columns (cols : list string) : list string :=
  if bool_decide ("_record_fingerprint" ∈ cols) then cols
  else cols ++ ["_record_fingerprint"].

Definition pks_ok (pks cols : list string) : bool :=
  forallb (λ pk, bool_decide (pk ∈ fp_columns cols)) pks.

(** [keys == key] *)
Definition key_mask (keys : list string) (key : string) : list bool :=
  (λ k, bool_decide (k = key)) <$> keys.

(** The loop [for key in common_keys] of [detect_changes]: the frames
    appended to [modified_records_list] and the keys appended to
    [unchanged_keys], in the order of the iteration.  The key of each row is
    kept in the column [_composite_key] of the working copies; [ckey] and
    [pkey] are those two columns. *)
Fixpoint classify_common (current_df current_with_fp previous_with_fp : DataFrame)
    (ckey pkey : list string) (keys : list string)
    : result (list DataFrame * list string) :=
  match keys with
  | [] => Ok ([], [])
  | key :: keys' =>
      cfps ← get_col current_with_fp "_record_fingerprint";
      current_fp ← iloc0 (select cfps (key_mask ckey key));
      pfps ← get_col previous_with_fp "_record_fingerprint";
      previous_fp ← iloc0 (select pfps (key_mask pkey key));
      rest ← classify_common current_df current_with_fp previous_with_fp
               ckey pkey keys';
      if decide (current_fp ≠ previous_fp)
      then Ok (boolean_index current_df (key_mask ckey key) :: rest.1, rest.2)
      else Ok (rest.1, key :: rest.2)
  end.

Definition all_new (self : DeltaLoader.t) (now : Z) (current_df : DataFrame)
    : DeltaResult.t :=
  {| DeltaResult.entity_type := DeltaLoader.entity_type self;
     DeltaResult.new_records := current_df;
     DeltaResult.modified_records := empty_frame (columns current_df);
     DeltaResult.deleted_record_ids := [];
     DeltaResult.unchanged_record_ids := [];
     DeltaResult.detection_timestamp := now |}.

(** [DeltaLoader.detect_changes]; [fs] is the file system the snapshots are
    read from, [now] the clock, the state is the state directory. *)
Definition detect_changes (self : DeltaLoader.t) (fs : gmap string DataFrame)
    (now : Z) (current_csv : string) (schema_columns : list string)
    : Eff (gmap string LoadState.t) DeltaResult.t :=
  current_df ← lift (read_csv fs current_csv);
  let missing_cols : gset string :=
    list_to_set schema_columns ∖ list_to_set (columns current_df) in
  if decide (missing_cols ≠ ∅) then raise (ValueError missing_cols) else
  match DeltaLoader.previous_state self with
  | None =>
      LoadState.save
        {| LoadState.entity_type := DeltaLoader.entity_type self;
           LoadState.last_load_timestamp := now;
           LoadState.last_csv_path := current_csv;
           LoadState.last_row_count := len current_df;
           LoadState.last_data_fingerprint := compute_dataset_fingerprint current_df;
           LoadState.column_schema := schema_columns;
           LoadState.primary_keys := DeltaLoader.primary_keys self;
           LoadState.metadata := [] |};;
      mret (all_new self now current_df)
  | Some previous_state =>
      let previous_csv := LoadState.last_csv_path previous_state in
      match fs !! previous_csv with
      | None => mret (all_new self now current_df)
      | Some _ =>
          previous_df ← lift (read_csv fs previous_csv);
          current_with_fp ← lift (add_fingerprints current_df);
          previous_with_fp ← lift (add_fingerprints previous_df);
          ckey ← lift (make_composite_key self current_with_fp);
          pkey ← lift (make_composite_key self previous_with_fp);
          let current_keys : gset string := list_to_set ckey in
          let previous_keys : gset string := list_to_set pkey in
          let new_keys := current_keys ∖ previous_keys in
          let deleted_keys := previous_keys ∖ current_keys in
          let common_keys := current_keys ∩ previous_keys in
          let new_records :=
            boolean_index current_df ((λ k, bool_decide (k ∈ new_keys)) <$> ckey) in
          classified ← lift (classify_common current_df current_with_fp
                               previous_with_fp ckey pkey (elements common_keys));
          let modified_records_list := classified.1 in
          let unchanged_keys := classified.2 in
          let modified_records :=
            match modified_records_list with
            | [] => empty_frame (columns current_df)
            | _ => pd_concat modified_records_list
            end in
          LoadState.save
            {| LoadState.entity_type := DeltaLoader.entity_type self;
               LoadState.last_load_timestamp := now;
               LoadState.last_csv_path := current_csv;
               LoadState.last_row_count := len current_df;
               LoadState.last_data_fingerprint := compute_dataset_fingerprint current_df;
               LoadState.column_schema := schema_columns;
               LoadState.primary_keys := DeltaLoader.primary_keys self;
               LoadState.metadata :=
                 [("new_count", len new_records);
                  ("modified_count", len modified_records);
                  ("deleted_count", size deleted_keys)] |};;
          mret {| DeltaResult.entity_type := DeltaLoader.entity_type self;
                  DeltaResult.new_records := new_records;
                  DeltaResult.modified_records := modified_records;
                  DeltaResult.deleted_record_ids := elements deleted_keys;
                  DeltaResult.unchanged_record_ids := unchanged_keys;
                  DeltaResult.detection_timestamp := now |}
      end
  end.

(** The metadata columns the loader adds before [to_sql]. *)
Definition with_meta (now : Z) (load_type : string) (df : DataFrame)
    : list StagedRow :=
  (λ r, row_set (row_set (row_set (prod_map id to_sql_cell <$> r)
                                  "_load_timestamp" (SqlTimestamp now))
                         "_load_type" (SqlText load_type))
                "_is_deleted" (SqlBool false)) <$> rows df.

(** [cursor.execute(statement, params)]: the statement is sent; the server
    runs it, or refuses it and psycopg2 raises. *)
Definition cursor_execute (s : stmt) : Eff Staging unit :=
  λ db,
    if where_accepted (where_col s) (where_ids s)
    then (Ok tt, {| table := exec_stmt s (table db);
                    executed := executed db ++ [s] |})
    else (Raise Psycopg2Error, {| table := table db;
                                  executed := executed db ++ [s] |}).

(** [DeltaLoader.load_delta_to_staging] on the staging table the call names,
    with the manager [__init__] makes, a [PostgreSQLManager]. *)
Definition load_delta_to_staging (self : DeltaLoader.t) (delta : DeltaResult.t)
    (now : Z) : Eff Staging unit :=
  if negb (DeltaResult.has_changes delta) then mret tt else
  (if (0 <? len (DeltaResult.new_records delta))%nat
   then
     with_connection
       (to_sql "append" (with_meta now "insert" (DeltaResult.new_records delta)))
   else mret tt);;
  (if (0 <? len (DeltaResult.modified_records delta))%nat
   then
     with_connection
       (pk_col ← lift (iloc0 (DeltaLoader.primary_keys self));
        modified_ids ← lift (get_col (DeltaResult.modified_records delta) pk_col);
        cursor_execute (DeleteWhereAny pk_col modified_ids);;
        to_sql "append"
          (with_meta now "update" (DeltaResult.modified_records delta)))
   else mret tt);;
  (if (0 <? length (DeltaResult.deleted_record_ids delta))%nat
   then
     with_connection
       (pk_col ← lift (iloc0 (DeltaLoader.primary_keys self));
        cursor_execute
          (SoftDeleteWhereAny pk_col now
             (Str <$> DeltaResult.deleted_record_ids delta)))
   else mret tt).

(** The state a run saves. *)
Definition saved_state (self : DeltaLoader.t) (now : Z) (current_csv : string)
    (schema_columns : list string) (current_df : DataFrame)
    (metadata : list (string * nat)) : LoadState.t :=
  {| LoadState.entity_type := DeltaLoader.entity_type self;
     LoadState.last_load_timestamp := now;
     LoadState.last_csv_path := current_csv;
     LoadState.last_row_count := len current_df;
     LoadState.last_data_fingerprint := compute_dataset_fingerprint current_df;
     LoadState.column_schema := schema_columns;
     LoadState.primary_keys := DeltaLoader.primary_keys self;
     LoadState.metadata := metadata |}.

(** ** Reading the working copies *)

(** The fingerprint [detect_changes] reads for a key: the first entry of the
    column [_record_fingerprint] among the rows with that key. *)
Definition fp_at (with_fp : DataFrame) (keys : list string) (key : string)
    : result cell :=
  fps ← get_col with_fp "_record_fingerprint";
  iloc0 (select fps (key_mask keys key)).

(** The first row of a frame with a given key. *)
Definition first_row (df : DataFrame) (keys : list string) (key : string)
    : result Row :=
  iloc0 (select (rows df) (key_mask keys key)).

(** Whether the separator of composite keys occurs in a string. *)
Fixpoint has_sep (s : string) : bool :=
  match s with
  | EmptyString => false
  | String c s' => Ascii.eqb c "_"%char || has_sep s'
  end.

(** ** The callers of the loader *)

(** A step on one of two stores. *)
Definition on_fst {S T A} (m : Eff S A) : Eff (S * T) A :=
  λ w, ((m w.1).1, ((m w.1).2, w.2)).

Definition on_snd {S T A} (m : Eff T A) : Eff (S * T) A :=
  λ w, ((m w.2).1, (w.1, (m w.2).2)).

(** [load_entity_incrementally], on the state directory and the staging
    table; [now] is the clock during the call, as in [detect_changes] and
    [load_delta_to_staging]. *)
Definition load_entity_incrementally (entity_type current_csv : string)
    (schema_columns primary_keys : list string) (fs : gmap string DataFrame)
    (now : Z) : Eff (gmap string LoadState.t * Staging) DeltaResult.t :=
  λ w,
    let loader := DeltaLoader.init entity_type primary_keys w.1 in
    (delta ← on_fst (detect_changes loader fs now current_csv schema_columns);
     (if DeltaResult.has_changes delta
      then on_snd (load_delta_to_staging loader delta now)
      else mret tt);;
     mret delta) w.

(** [DeltaDetectionStage.execute_async]; [to_csv_then_read df] is what
    [pd.read_csv(path, dtype=object)] returns for the file that
    [df.to_csv(path, index=False)] wrote. *)
Definition delta_detection_stage (to_csv_then_read : DataFrame → DataFrame)
    (now : Z) (context : Context.t) : Eff World Context.t :=
  λ w,
    let config := Context.config context in
    let df := Context.cleaned_df context in
    if negb (EntityConfig.enable_delta_loading config) then
      (Ok {| Context.config := config;
             Context.cleaned_df := df;
             Context.delta := None;
             Context.loader := Context.loader context;
             Context.load_df := Some df;
             Context.error := Context.error context |}, w)
    else
      let loader :=
        DeltaLoader.init (EntityConfig.entity_type config)
                         (EntityConfig.primary_keys config) (states w) in
      let path := temp_csv (EntityConfig.entity_type config) in
      let fs := <[path := to_csv_then_read df]> (files w) in
      let detected :=
        detect_changes loader fs now path (EntityConfig.columns config)
                       (states w) in
      let w' := {| files := fs; states := detected.2;
                   staging := staging w; full_loads := full_loads w |} in
      match detected.1 with
      | Raise e => (Raise e, w')
      | Ok delta =>
          let load_df :=
            if DeltaResult.has_changes delta
            then pd_concat [DeltaResult.new_records delta;
                            DeltaResult.modified_records delta]
            else empty_frame (columns df) in
          (Ok {| Context.config := config;
                 Context.cleaned_df := df;
                 Context.delta := Some delta;
                 Context.loader := Some loader;
                 Context.load_df := Some load_df;
                 Context.error := Context.error context |}, w')
      end.

(** The full load of [StagingLoadStage]:
    [load_df.to_sql(..., if_exists='replace')] with a connection of the
    manager.  [full_loads] keeps the frames a full load was called with. *)
Definition full_load (load_df : DataFrame) : Eff World unit :=
  λ w,
    let written := with_connection (to_sql "replace" (plain_rows load_df))
                                   (staging w) in
    (written.1, {| files := files w; states := states w;
                   staging := written.2;
                   full_loads := full_loads w ++ [load_df] |}).

(** [StagingLoadStage.execute_async] *)
Definition staging_load_stage (now : Z) (context : Context.t)
    : Eff World Context.t :=
  λ w,
    match Context.load_df context with
    | None => (Raise (KeyError "load_df"), w)
    | Some load_df =>
        if (len load_df =? 0)%nat then (Ok context, w) else
        match Context.delta context with
        | Some delta =>
            if DeltaResult.has_changes delta then
              match Context.loader context with
              | None => (Raise (KeyError "loader"), w)
              | Some loader =>
                  let loaded := load_delta_to_staging loader delta now (staging w) in
                  let w' := {| files := files w; states := states w;
                               staging := loaded.2;
                               full_loads := full_loads w |} in
                  match loaded.1 with
                  | Ok _ => (Ok context, w')
                  | Raise e => (Raise e, w')
                  end
              end
            else (full_load load_df ;; mret context) w
        | None => (full_load load_df ;; mret context) w
        end
    end.

(** The loop of [UnifiedPipeline.process_entity]: the stages in turn, until
    one raises; the exception is kept in the context. *)
Fixpoint run_stages (stages : list (Context.t → Eff World Context.t))
    (context : Context.t) (w : World) : Context.t * World :=
  match stages with
  | [] => (context, w)
  | stage :: stages' =>
      match stage context w with
      | (Ok context', w') => run_stages stages' context' w'
      | (Raise e, w') =>
          ({| Context.config := Context.config context;
              Context.cleaned_df := Context.cleaned_df context;
              Context.delta := Context.delta context;
              Context.loader := Context.loader context;
              Context.load_df := Context.load_df context;
              Context.error := Some e |}, w')
      end
  end.

(** * Properties *)

(** ** Sorting the items of a row *)

Definition label_lt (a b : string * cell) : Prop := String_as_OT.lt a.1 b.1.

Lemma str_lt_true a b : str_lt a b = true ↔ String_as_OT.lt a b.
Proof.
  unfold str_lt, String_as_OT.lt.
  destruct (String_as_OT.compare a b); split; congruence.
Qed.

Lemma str_lt_irrefl a : ¬ String_as_OT.lt a a.
Proof. apply (StrictOrder_Irreflexive (R := String_as_OT.lt)). Qed.

Lemma str_lt_trans a b c :
  String_as_OT.lt a b → String_as_OT.lt b c → String_as_OT.lt a c.
Proof. apply (StrictOrder_Transitive (R := String_as_OT.lt)). Qed.

Lemma str_lt_total a b : a ≠ b → str_lt a b = false → String_as_OT.lt b a.
Proof.
  intros Hne Hlt. destruct (String_as_OT.compare_spec a b) as [Heq|Hab|Hba].
  - by destruct Hne.
  - apply str_lt_true in Hab. congruence.
  - done.
Qed.

Lemma tuple_lt_labels a b : a.1 ≠ b.1 → tuple_lt a b = Ok (str_lt a.1 b.1).
Proof.
  intros Hne. unfold tuple_lt.
  by apply String.eqb_neq in Hne as ->.
Qed.

Lemma label_lt_asym a b : label_lt a b → label_lt b a → a = b.
Proof.
  unfold label_lt. intros H1 H2.
  destruct (str_lt_irrefl a.1). by eapply str_lt_trans.
Qed.

Lemma insert_sorted_ok x l :
  x.1 ∉ labels l → StronglySorted label_lt l →
  ∃ l', insert_sorted x l = Ok l' ∧ l' ≡ₚ x :: l ∧ StronglySorted label_lt l'.
Proof.
  unfold labels. induction l as [|y l IH]; intros Hx Hs; simpl.
  { exists [x]. repeat split; [done|]. repeat constructor. }
  apply not_elem_of_cons in Hx as [Hxy Hx].
  apply StronglySorted_cons in Hs as [Hy Hs].
  rewrite tuple_lt_labels by done. simpl.
  destruct (str_lt y.1 x.1) eqn:Hlt.
  - destruct (IH Hx Hs) as (l' & -> & Hp & Hs'). simpl.
    exists (y :: l'). split; [done|]. split.
    + rewrite Hp. apply perm_swap.
    + apply StronglySorted_cons. split; [|done].
      rewrite Hp. constructor; [|done]. by apply str_lt_true.
  - exists (x :: y :: l). split; [done|]. split; [done|].
    assert (label_lt x y) as Hxy' by (apply str_lt_total; [congruence|done]).
    apply StronglySorted_cons. split.
    + constructor; [done|].
      eapply Forall_impl; [exact Hy|].
      intros z Hz. by eapply str_lt_trans.
    + by apply StronglySorted_cons.
Qed.

Lemma sorted_ok l :
  NoDup (labels l) →
  ∃ s, sorted l = Ok s ∧ s ≡ₚ l ∧ StronglySorted label_lt s.
Proof.
  unfold labels. induction l as [|x l IH]; intros Hnd; simpl.
  { exists []. repeat split; [done|]. constructor. }
  apply NoDup_cons in Hnd as [Hx Hnd].
  destruct (IH Hnd) as (s & -> & Hp & Hs). simpl.
  destruct (insert_sorted_ok x s) as (s' & Hi & Hp' & Hs'); [|done|].
  { unfold labels. by rewrite Hp. }
  exists s'. split; [done|]. split; [|done]. by rewrite Hp', Hp.
Qed.

Lemma sorted_perm l1 l2 :
  NoDup (labels l1) → l1 ≡ₚ l2 →
  ∃ s, sorted l1 = Ok s ∧ sorted l2 = Ok s.
Proof.
  intros Hnd Hp.
  assert (NoDup (labels l2)) as Hnd2 by (unfold labels in *; by rewrite <-Hp).
  destruct (sorted_ok l1 Hnd) as (s1 & E1 & P1 & S1).
  destruct (sorted_ok l2 Hnd2) as (s2 & E2 & P2 & S2).
  exists s1. split; [done|]. rewrite E2. f_equal.
  symmetry. apply (StronglySorted_unique_strong label_lt); [|done..|].
  - intros ????. apply label_lt_asym.
  - by rewrite P1, P2.
Qed.

(** ** Lists, masks and [mapM] *)

Lemma mapM_Ok {A B} (f : A → result B) l k :
  mapM f l = Ok k ↔ Forall2 (λ x y, f x = Ok y) l k.
Proof.
  revert k. induction l as [|x l IH]; intros k; simpl.
  - split; [intros [= <-]; constructor | by inversion 1].
  - destruct (f x) as [y|e] eqn:Hx; simpl.
    + destruct (mapM f l) as [k'|e] eqn:Hl; simpl; unfold mret, result_ret.
      * split.
        -- intros [= <-]. constructor; [done|]. by apply IH.
        -- inversion 1 as [|???? Hy Hk]; subst.
           apply IH in Hk. congruence.
      * split; [done|]. inversion 1 as [|???? Hy Hk]; subst.
        by apply IH in Hk.
    + split; [done|]. inversion 1; congruence.
Qed.

Lemma Forall2_select {A B} (P : A → B → Prop) l k mask :
  Forall2 P l k → Forall2 P (select l mask) (select k mask).
Proof.
  intros H. revert mask. induction H as [|x y l k Hxy H IH]; intros mask.
  - destruct mask; constructor.
  - destruct mask as [|[] mask]; simpl; [constructor| |]; auto.
Qed.

Lemma Forall2_concat_rows {A B} (P : A → B → Prop) ls ks :
  Forall2 (Forall2 P) ls ks → Forall2 P (concat ls) (concat ks).
Proof. induction 1; simpl; [constructor|]. by apply Forall2_app. Qed.

Lemma select_key_mask (keys : list string) key :
  select keys (key_mask keys key) = filter (λ k, k = key) keys.
Proof.
  unfold key_mask. induction keys as [|k keys IH]; simpl; [done|].
  rewrite filter_cons. case_bool_decide; case_decide; try done; by f_equal.
Qed.

Lemma select_elem_mask (keys : list string) (X : gset string) :
  select keys ((λ k, bool_decide (k ∈ X)) <$> keys) = filter (λ k, k ∈ X) keys.
Proof.
  induction keys as [|k keys IH]; simpl; [done|].
  rewrite filter_cons. case_bool_decide; case_decide; try done; by f_equal.
Qed.

(** ** Composite keys, row by row *)

Lemma get_col_cases df c :
  (has_column df c = true ∧
   get_col df c = Ok ((λ r, row_get NaN r c) <$> rows df)) ∨
  (has_column df c = false ∧ get_col df c = Raise (KeyError c)).
Proof. unfold get_col. destruct (has_column df c); auto. Qed.

Lemma mapM_get_col df pks :
  (∃ cs, mapM (get_col df) pks = Ok cs) ↔ forallb (has_column df) pks = true.
Proof.
  induction pks as [|pk pks IH]; simpl.
  - split; [done|]. by exists [].
  - destruct (get_col_cases df pk) as [[-> ->]|[-> ->]]; simpl.
    + rewrite <-IH. split.
      * intros [cs Hcs]. destruct (mapM (get_col df) pks); [by eexists|done].
      * intros [cs ->]. by eexists.
    + split; [by intros [??]|done].
Qed.

Lemma make_composite_key_Ok self df ks :
  make_composite_key self df = Ok ks ↔
  forallb (has_column df) (DeltaLoader.primary_keys self) = true ∧
  ks = row_key (DeltaLoader.primary_keys self) <$> rows df.
Proof.
  unfold make_composite_key.
  destruct (DeltaLoader.primary_keys self) as [|pk [|pk2 pks]] eqn:Hpks.
  - simpl. unfold mret, result_ret. simpl. split; [by intros [= <-]|by intros [_ ->]].
  - simpl. destruct (get_col_cases df pk) as [[-> ->]|[-> ->]]; simpl.
    + rewrite <-list_fmap_compose. split; [by intros [= <-]|by intros [_ ->]].
    + split; [done|by intros [??]].
  - rewrite <-mapM_get_col.
    destruct (mapM (get_col df) (pk :: pk2 :: pks)) as [cs|e]; simpl.
    + split; [intros [= <-]; eauto|by intros [_ ->]].
    + split; [done|by intros [[??] _]].
Qed.

Lemma snapshot_keys_Ok self df ks :
  snapshot_keys self df = Ok ks ↔
  pks_ok (DeltaLoader.primary_keys self) (columns df) = true ∧
  Forall2 (λ r k, keyed_row (DeltaLoader.primary_keys self) r = Ok k) (rows df) ks.
Proof.
  unfold snapshot_keys, add_fingerprints.
  destruct (mapM compute_record_fingerprint (rows df)) as [fps|e] eqn:Hfps; simpl.
  - apply mapM_Ok in Hfps. rewrite make_composite_key_Ok.
    unfold pks_ok, fp_columns, has_column, set_col. simpl.
    apply and_iff_compat_l. clear -Hfps.
    revert ks. induction Hfps as [|r fp rs fps Hr Hrs IH]; intros ks; simpl.
    + split; [intros ->; constructor|by inversion 1].
    + split.
      * intros ->. constructor; [|by apply IH].
        unfold keyed_row. by rewrite Hr.
      * inversion 1 as [|?? ? ks' Hk Hks]; subst. f_equal.
        -- unfold keyed_row in Hk. rewrite Hr in Hk. simpl in Hk. congruence.
        -- by apply IH.
  - split; [done|]. intros [_ HF].
    assert (∃ fps, mapM compute_record_fingerprint (rows df) = Ok fps) as [? ?];
      [|congruence].
    clear Hfps. induction HF as [|r k rs ks Hr _ [fps IH]].
    + by exists [].
    + unfold keyed_row in Hr.
      destruct (compute_record_fingerprint r) as [fp|] eqn:Hfp; [|done].
      exists (fp :: fps). simpl. by rewrite Hfp, IH.
Qed.

(** ** The comparison of two snapshots *)

Lemma classify_common_split cur cwf pwf ckey pkey keys ms us :
  classify_common cur cwf pwf ckey pkey keys = Ok (ms, us) →
  ∃ mk, ms = (λ k, boolean_index cur (key_mask ckey k)) <$> mk ∧
        mk ++ us ≡ₚ keys.
Proof.
  revert ms us. induction keys as [|key keys IH]; intros ms us; simpl.
  { intros [= <- <-]. by exists []. }
  destruct (get_col cwf _) as [cfps|]; simpl; [|done].
  destruct (iloc0 (select cfps _)) as [cfp|]; simpl; [|done].
  destruct (get_col pwf _) as [pfps|]; simpl; [|done].
  destruct (iloc0 (select pfps _)) as [pfp|]; simpl; [|done].
  destruct (classify_common cur cwf pwf ckey pkey keys) as [[ms' us']|];
    simpl; [|done].
  destruct (IH ms' us' eq_refl) as (mk & -> & Hp).
  case_decide; intros [= <- <-].
  - exists (key :: mk). split; [done|]. simpl. by rewrite Hp.
  - exists mk. split; [done|]. by rewrite <-Permutation_middle, Hp.
Qed.

Lemma detect_changes_compare self fs now current_csv schema store st cur prev
    delta store' :
  DeltaLoader.previous_state self = Some st →
  fs !! current_csv = Some cur →
  fs !! LoadState.last_csv_path st = Some prev →
  detect_changes self fs now current_csv schema store = (Ok delta, store') →
  ∃ ckey pkey mk,
    snapshot_keys self cur = Ok ckey ∧
    snapshot_keys self prev = Ok pkey ∧
    DeltaResult.new_records delta =
      boolean_index cur
        ((λ k, bool_decide (k ∈ (list_to_set ckey ∖ list_to_set pkey : gset string)))
           <$> ckey) ∧
    DeltaResult.modified_records delta =
      match mk with
      | [] => empty_frame (columns cur)
      | _ => pd_concat ((λ k, boolean_index cur (key_mask ckey k)) <$> mk)
      end ∧
    DeltaResult.deleted_record_ids delta =
      elements (list_to_set pkey ∖ list_to_set ckey : gset string) ∧
    mk ++ DeltaResult.unchanged_record_ids delta ≡ₚ
      elements (list_to_set ckey ∩ list_to_set pkey : gset string).
Proof.
  intros Hst Hcur Hprev. unfold detect_changes, snapshot_keys.
  unfold mbind at 1, eff_bind, lift, raise, lift, read_csv.
  rewrite Hcur, Hst. case_decide; [done|]. rewrite Hprev.
  unfold mbind, eff_bind, LoadState.save, mret, eff_ret. simpl.
  destruct (add_fingerprints cur) as [cwf|]; [|done].
  destruct (add_fingerprints prev) as [pwf|]; [|done].
  destruct (make_composite_key self cwf) as [ckey|] eqn:Hck; [|done].
  destruct (make_composite_key self pwf) as [pkey|] eqn:Hpk; [|done].
  destruct (classify_common _ _ _ _ _ _) as [[ms us]|] eqn:Hcl; [|done].
  intros [= <- _]. simpl.
  apply classify_common_split in Hcl as (mk & -> & Hp).
  exists ckey, pkey, mk. repeat split; [done..| |done]. by destruct mk.
Qed.

(** The keys of the rows a mask selects, and of the rows of the frames
    [detect_changes] concatenates. *)
Lemma snapshot_keys_boolean_index self df ks mask :
  snapshot_keys self df = Ok ks →
  snapshot_keys self (boolean_index df mask) = Ok (select ks mask).
Proof.
  rewrite !snapshot_keys_Ok. simpl. intros [? ?].
  split; [done|]. by apply Forall2_select.
Qed.

Lemma snapshot_keys_empty_frame self df ks :
  snapshot_keys self df = Ok ks →
  snapshot_keys self (empty_frame (columns df)) = Ok [].
Proof.
  rewrite !snapshot_keys_Ok. simpl. intros [? ?]. split; [done|constructor].
Qed.

Lemma snapshot_keys_pd_concat self df ks mk :
  snapshot_keys self df = Ok ks → mk ≠ [] →
  snapshot_keys self
    (pd_concat ((λ k, boolean_index df (key_mask ks k)) <$> mk)) =
  Ok (concat ((λ k, select ks (key_mask ks k)) <$> mk)).
Proof.
  rewrite !snapshot_keys_Ok. intros [Hc HF] Hmk. split.
  - by destruct mk.
  - simpl. apply Forall2_concat_rows.
    clear Hmk. induction mk as [|k mk IH]; simpl; constructor; [|done].
    by apply Forall2_select.
Qed.

Lemma elem_of_concat {A} (x : A) (ls : list (list A)) :
  x ∈ concat ls ↔ ∃ l, x ∈ l ∧ l ∈ ls.
Proof.
  induction ls as [|l ls IH]; simpl.
  - split; [by intros ?%elem_of_nil|]. by intros (? & _ & ?%elem_of_nil).
  - rewrite elem_of_app, IH. split.
    + intros [?|(l' & ? & ?)]; [exists l|exists l']; split; auto; by constructor.
    + intros (l' & Hx & [->|Hl]%elem_of_cons); eauto.
Qed.

Lemma list_to_set_concat_filter (ks mk : list string) :
  mk ⊆ ks →
  list_to_set (C := gset string)
    (concat ((λ k, select ks (key_mask ks k)) <$> mk)) = list_to_set mk.
Proof.
  intros Hsub. apply set_eq. intros x.
  rewrite !elem_of_list_to_set, elem_of_concat. split.
  - intros (l & Hx & Hl). apply list_elem_of_fmap in Hl as (k & -> & Hk).
    rewrite select_key_mask in Hx. apply list_elem_of_filter in Hx as [-> _].
    done.
  - intros Hx. exists (select ks (key_mask ks x)). split.
    + rewrite select_key_mask. apply list_elem_of_filter. split; [done|].
      by apply Hsub.
    + apply list_elem_of_fmap. by exists x.
Qed.

(** C1.  When [detect_changes] compares the current snapshot with a previous
    snapshot it could read, the four key sets of its result (the composite
    keys of the new rows, those of the modified rows, the deleted ids and the
    unchanged ids) are pairwise disjoint, and their union is the union of the
    composite keys of the two snapshots. *)
Theorem detect_changes_partition self fs now current_csv schema store st
    cur prev delta store' :
  DeltaLoader.previous_state self = Some st →
  fs !! current_csv = Some cur →
  fs !! LoadState.last_csv_path st = Some prev →
  detect_changes self fs now current_csv schema store = (Ok delta, store') →
  ∃ ckey pkey nkey mkey,
    snapshot_keys self cur = Ok ckey ∧
    snapshot_keys self prev = Ok pkey ∧
    snapshot_keys self (DeltaResult.new_records delta) = Ok nkey ∧
    snapshot_keys self (DeltaResult.modified_records delta) = Ok mkey ∧
    let current_keys : gset string := list_to_set ckey in
    let previous_keys : gset string := list_to_set pkey in
    let new_keys : gset string := list_to_set nkey in
    let modified_keys : gset string := list_to_set mkey in
    let deleted_keys : gset string :=
      list_to_set (DeltaResult.deleted_record_ids delta) in
    let unchanged_keys : gset string :=
      list_to_set (DeltaResult.unchanged_record_ids delta) in
    new_keys ## modified_keys ∧ new_keys ## deleted_keys ∧
    new_keys ## unchanged_keys ∧ modified_keys ## deleted_keys ∧
    modified_keys ## unchanged_keys ∧ deleted_keys ## unchanged_keys ∧
    new_keys ∪ modified_keys ∪ deleted_keys ∪ unchanged_keys =
      current_keys ∪ previous_keys.
Proof.
  clear where_accepted.
  intros Hst Hcur Hprev Hrun.
  destruct (detect_changes_compare _ _ _ _ _ _ _ _ _ _ _ Hst Hcur Hprev Hrun)
    as (ckey & pkey & mk & Hck & Hpk & Hnew & Hmod & Hdel & Hp).
  set (us := DeltaResult.unchanged_record_ids delta) in *.
  assert (∀ x : string, x ∈ (mk ++ us)%list ↔ x ∈ ckey ∧ x ∈ pkey) as Hcommon.
  { intros x. rewrite Hp, elem_of_elements, elem_of_intersection,
      !elem_of_list_to_set. done. }
  assert (∀ x, x ∈ mk → x ∉ us) as Hmu.
  { assert (NoDup (mk ++ us)%list) as Hnd by (rewrite Hp; apply NoDup_elements).
    apply NoDup_app in Hnd as (_ & Hnd & _). done. }
  assert (mk ⊆ ckey) as Hsub.
  { intros x Hx. apply (Hcommon x). apply elem_of_app. by left. }
  exists ckey, pkey,
    (select ckey ((λ k, bool_decide
       (k ∈ (list_to_set ckey ∖ list_to_set pkey : gset string))) <$> ckey)),
    (concat ((λ k, select ckey (key_mask ckey k)) <$> mk)).
  split; [done|]. split; [done|]. split.
  { rewrite Hnew. by apply snapshot_keys_boolean_index. }
  split.
  { rewrite Hmod. destruct mk as [|k mk'] eqn:Hmk.
    - by eapply snapshot_keys_empty_frame.
    - rewrite <-Hmk. apply snapshot_keys_pd_concat; [done|]. by rewrite Hmk. }
  rewrite list_to_set_concat_filter by done.
  rewrite select_elem_mask, Hdel. fold us.
  rewrite list_to_set_elements_L.
  assert (list_to_set (C := gset string)
            (filter (λ k, k ∈ (list_to_set ckey ∖ list_to_set pkey : gset string)) ckey)
          = list_to_set ckey ∖ list_to_set pkey) as ->.
  { apply set_eq. intros x.
    rewrite elem_of_list_to_set, list_elem_of_filter, elem_of_difference,
      !elem_of_list_to_set. tauto. }
  simpl. setoid_rewrite elem_of_app in Hcommon.
  repeat split;
    try (apply elem_of_disjoint; intros x); try (apply set_eq; intros x);
    rewrite ?elem_of_union, ?elem_of_difference, ?elem_of_list_to_set;
    specialize (Hcommon x); specialize (Hmu x); unfold not in *;
    destruct (decide (x ∈ ckey)), (decide (x ∈ pkey)); tauto.
Qed.

(** ** The runs that do not compare *)

Lemma missing_cols_empty (schema cols : list string) :
  (∀ c, c ∈ schema → c ∈ cols) ↔
  (list_to_set schema ∖ list_to_set cols : gset string) = ∅.
Proof.
  split.
  - intros H. apply set_eq. intros c.
    rewrite elem_of_difference, !elem_of_list_to_set. split.
    + intros [Hc Hn]. destruct Hn. by apply H.
    + by intros ?%not_elem_of_empty.
  - intros H c Hc. destruct (decide (c ∈ cols)) as [|Hn]; [done|].
    exfalso. apply (not_elem_of_empty (C := gset string) c). rewrite <-H.
    apply elem_of_difference. by rewrite !elem_of_list_to_set.
Qed.

(** C3.  On a first run (the loader found no [LoadState]) over a snapshot of
    [N] rows that carries the expected columns, [detect_changes] returns: all
    [N] rows are new, no row is modified, no id is deleted or unchanged, and
    the state saved for the entity records [N] rows. *)
Theorem first_run_all_new self fs now current_csv schema store cur N :
  DeltaLoader.previous_state self = None →
  fs !! current_csv = Some cur →
  (∀ c, c ∈ schema → c ∈ columns cur) →
  len cur = N →
  ∃ delta st,
    detect_changes self fs now current_csv schema store =
      (Ok delta, <[DeltaLoader.entity_type self := st]> store) ∧
    DeltaResult.new_records delta = cur ∧
    len (DeltaResult.new_records delta) = N ∧
    len (DeltaResult.modified_records delta) = 0 ∧
    length (DeltaResult.deleted_record_ids delta) = 0 ∧
    length (DeltaResult.unchanged_record_ids delta) = 0 ∧
    LoadState.last_row_count st = N.
Proof.
  intros Hst Hcur Hcols HN. apply missing_cols_empty in Hcols.
  eexists _, _. unfold detect_changes.
  unfold mbind, eff_bind, lift, raise, lift, read_csv.
  rewrite Hcur, Hst. case_decide; [done|].
  unfold LoadState.save, mret, eff_ret. simpl.
  split; [reflexivity|]. by rewrite HN.
Qed.

(** C4.  A current snapshot that lacks an expected column makes
    [detect_changes] raise the schema error: the caller gets the exception
    and no [DeltaResult], and the state store is left as it was. *)
Theorem missing_column_fails_closed self fs now current_csv schema store cur c :
  fs !! current_csv = Some cur →
  c ∈ schema → c ∉ columns cur →
  ∃ missing_cols,
    detect_changes self fs now current_csv schema store =
      (Raise (ValueError missing_cols), store) ∧
    c ∈ missing_cols.
Proof.
  intros Hcur Hc Hnc.
  exists (list_to_set schema ∖ list_to_set (columns cur)).
  assert (c ∈ (list_to_set schema ∖ list_to_set (columns cur) : gset string))
    as Hin by (apply elem_of_difference; by rewrite !elem_of_list_to_set).
  split; [|done]. unfold detect_changes.
  unfold mbind, eff_bind, lift, raise, lift, read_csv. rewrite Hcur.
  case_decide as Hm; [done|].
  rewrite Hm in Hin. by apply not_elem_of_empty in Hin.
Qed.

(** The run of [detect_changes] when the loader has a previous state whose
    snapshot file is gone: everything is new, and nothing is saved. *)
Lemma previous_snapshot_missing self fs now current_csv schema store st cur :
  DeltaLoader.previous_state self = Some st →
  fs !! LoadState.last_csv_path st = None →
  fs !! current_csv = Some cur →
  (∀ c, c ∈ schema → c ∈ columns cur) →
  detect_changes self fs now current_csv schema store =
    (Ok (all_new self now cur), store).
Proof.
  intros Hst Hprev Hcur Hcols. apply missing_cols_empty in Hcols.
  unfold detect_changes.
  unfold mbind, eff_bind, lift, raise, lift, read_csv.
  rewrite Hcur, Hst. case_decide; [done|]. by rewrite Hprev.
Qed.

(** ** The staging loader *)

(** C5.  For a delta without changes (no new record, no modified record, no
    deleted id) [load_delta_to_staging] returns at once: it executes no
    statement, and the staging table is what it was. *)
Theorem no_changes_no_staging_operation self delta now db :
  DeltaResult.has_changes delta = false →
  load_delta_to_staging self delta now db = (Ok tt, db).
Proof. intros H. unfold load_delta_to_staging. by rewrite H. Qed.

Lemma row_get_set_eq {V} (d : V) r l v : row_get d (row_set r l v) l = v.
Proof.
  induction r as [|[l' w] r IH]; simpl.
  - by rewrite String.eqb_refl.
  - destruct (String.eqb l' l) eqn:E; simpl; by rewrite E.
Qed.

Lemma row_get_set_ne {V} (d : V) r l l' v :
  l ≠ l' → row_get d (row_set r l v) l' = row_get d r l'.
Proof.
  intros Hne. induction r as [|[l0 w] r IH]; simpl.
  - by apply String.eqb_neq in Hne as ->.
  - destruct (String.eqb l0 l) eqn:E; simpl; [|by rewrite IH].
    apply String.eqb_eq in E as ->. by apply String.eqb_neq in Hne as ->.
Qed.

Lemma mark_deleted_flags ts r :
  row_get SqlNull (mark_deleted ts r) "_is_deleted" = SqlBool true ∧
  row_get SqlNull (mark_deleted ts r) "_load_type" = SqlText "delete" ∧
  row_get SqlNull (mark_deleted ts r) "_load_timestamp" = SqlTimestamp ts.
Proof.
  unfold mark_deleted. repeat split.
  - rewrite 2!row_get_set_ne by done. apply row_get_set_eq.
  - apply row_get_set_eq.
  - rewrite row_get_set_ne by done. apply row_get_set_eq.
Qed.

Lemma mark_deleted_other ts r c :
  c ∉ meta_columns →
  row_get SqlNull (mark_deleted ts r) c = row_get SqlNull r c.
Proof.
  unfold meta_columns, mark_deleted. intros Hc.
  rewrite !not_elem_of_cons in Hc. destruct Hc as (? & ? & ? & _).
  by rewrite !row_get_set_ne by done.
Qed.

(** What a call does, case by case. *)
Lemma load_delta_to_staging_cases self delta now db :
  load_delta_to_staging self delta now db =
    if negb (DeltaResult.has_changes delta) then (Ok tt, db)
    else if (0 <? len (DeltaResult.new_records delta))%nat
    then (Raise DatabaseError, db)
    else
      match DeltaLoader.primary_keys self with
      | [] => (Raise IndexError, db)
      | pk_col :: _ =>
          if (0 <? len (DeltaResult.modified_records delta))%nat then
            match get_col (DeltaResult.modified_records delta) pk_col with
            | Raise e => (Raise e, db)
            | Ok modified_ids =>
                (Raise (if where_accepted pk_col modified_ids
                        then DatabaseError else Psycopg2Error),
                 {| table := table db;
                    executed := executed db
                                  ++ [DeleteWhereAny pk_col modified_ids] |})
            end
          else
            let s := SoftDeleteWhereAny pk_col now
                       (Str <$> DeltaResult.deleted_record_ids delta) in
            if where_accepted pk_col (Str <$> DeltaResult.deleted_record_ids delta)
            then (Ok tt, {| table := exec_stmt s (table db);
                            executed := executed db ++ [s] |})
            else (Raise Psycopg2Error, {| table := table db;
                                          executed := executed db ++ [s] |})
      end.
Proof.
  unfold load_delta_to_staging, DeltaResult.has_changes.
  destruct db as [tbl ex].
  destruct (0 <? len (DeltaResult.new_records delta))%nat eqn:Hn; simpl.
  { done. }
  destruct (0 <? len (DeltaResult.modified_records delta))%nat eqn:Hm; simpl.
  - unfold mbind, eff_bind, with_connection, lift, cursor_execute, to_sql. simpl.
    destruct (DeltaLoader.primary_keys self) as [|pk_col rest]; simpl; [done|].
    destruct (get_col (DeltaResult.modified_records delta) pk_col)
      as [ids|e]; simpl; [|done].
    by destruct (where_accepted pk_col ids).
  - destruct (0 <? length (DeltaResult.deleted_record_ids delta))%nat eqn:Hd;
      simpl; [|done].
    unfold mbind, eff_bind, mret, eff_ret, with_connection, lift, cursor_execute.
    simpl.
    destruct (DeltaLoader.primary_keys self) as [|pk_col rest]; simpl; [done|].
    by destruct (where_accepted pk_col _).
Qed.

Lemma elem_of_soft_delete pk_col ts ids tbl r' :
  r' ∈ exec_stmt (SoftDeleteWhereAny pk_col ts ids) tbl ↔
  ∃ r, r ∈ tbl ∧
       r' = if eq_any (row_get SqlNull r pk_col) ids then mark_deleted ts r else r.
Proof.
  simpl. rewrite list_elem_of_fmap.
  split; intros (r & H1 & H2); exists r; by split.
Qed.

(** A call returns only when it had nothing to do, or for a delta that only
    lists deleted ids, whose UPDATE the server ran. *)
Lemma load_delta_to_staging_returns self delta now db db' :
  load_delta_to_staging self delta now db = (Ok tt, db') →
  db' = db ∧ DeltaResult.has_changes delta = false ∨
  ∃ pk_col rest,
    DeltaLoader.primary_keys self = pk_col :: rest ∧
    len (DeltaResult.new_records delta) = 0 ∧
    len (DeltaResult.modified_records delta) = 0 ∧
    where_accepted pk_col (Str <$> DeltaResult.deleted_record_ids delta) = true ∧
    db' = {| table := exec_stmt
                        (SoftDeleteWhereAny pk_col now
                           (Str <$> DeltaResult.deleted_record_ids delta))
                        (table db);
             executed := executed db
                           ++ [SoftDeleteWhereAny pk_col now
                                 (Str <$> DeltaResult.deleted_record_ids delta)] |}.
Proof.
  rewrite load_delta_to_staging_cases.
  destruct (DeltaResult.has_changes delta) eqn:Hch; simpl.
  2:{ intros [= <-]. by left. }
  destruct (0 <? len (DeltaResult.new_records delta))%nat eqn:Hn; [done|].
  destruct (DeltaLoader.primary_keys self) as [|pk_col rest]; [done|].
  destruct (0 <? len (DeltaResult.modified_records delta))%nat eqn:Hm.
  { by destruct (get_col _ _). }
  destruct (where_accepted pk_col _) eqn:Hacc; [|done].
  intros [= <-]. right. exists pk_col, rest.
  apply Nat.ltb_ge in Hn, Hm. repeat split; [lia|lia|done].
Qed.

(** C6 (amended).  For a loader with a single primary-key column (not one of
    the three metadata columns), a delta that lists [k] as deleted, and a
    staged row whose key column holds [k]: after a load that returns, the
    table still has a row for [k]; every row for [k] has the deletion flag
    true, load type delete and the timestamp of this load; and unless [k] is
    also among the modified records (whose old versions the update phase
    removes) the staged row itself is still there, flagged. *)
Theorem soft_delete_flags_single_pk self delta now db db' pk k r :
  DeltaLoader.primary_keys self = [pk] →
  pk ∉ meta_columns →
  k ∈ DeltaResult.deleted_record_ids delta →
  r ∈ table db →
  row_get SqlNull r pk = SqlText k →
  load_delta_to_staging self delta now db = (Ok tt, db') →
  (∃ r', r' ∈ table db' ∧ row_get SqlNull r' pk = SqlText k) ∧
  (∀ r', r' ∈ table db' → row_get SqlNull r' pk = SqlText k →
     row_get SqlNull r' "_is_deleted" = SqlBool true ∧
     row_get SqlNull r' "_load_type" = SqlText "delete" ∧
     row_get SqlNull r' "_load_timestamp" = SqlTimestamp now) ∧
  ((∀ ids, get_col (DeltaResult.modified_records delta) pk = Ok ids →
           Str k ∉ ids) →
   mark_deleted now r ∈ table db').
Proof.
  intros Hpk Hmeta Hk Hr Hrk Hload.
  assert (eq_any (SqlText k) (Str <$> DeltaResult.deleted_record_ids delta) = true)
    as Hany.
  { simpl. apply bool_decide_eq_true. apply list_elem_of_fmap. by exists k. }
  apply load_delta_to_staging_returns in Hload
    as [[_ Hch]|(pk_col & rest & Hpk' & _ & _ & _ & ->)].
  { unfold DeltaResult.has_changes in Hch.
    destruct (DeltaResult.deleted_record_ids delta); [by apply elem_of_nil in Hk|].
    by rewrite orb_true_r in Hch. }
  rewrite Hpk in Hpk'. injection Hpk' as <- <-.
  cbn [table]. split; [|split].
  - exists (mark_deleted now r). split.
    + apply elem_of_soft_delete. exists r. split; [done|].
      by rewrite Hrk, Hany.
    + by rewrite mark_deleted_other.
  - intros r' [r0 [Hr0 ->]]%elem_of_soft_delete.
    destruct (eq_any (row_get SqlNull r0 pk) _) eqn:E.
    + intros _. apply mark_deleted_flags.
    + intros Hr0k. rewrite Hr0k in E. congruence.
  - intros _. apply elem_of_soft_delete. exists r. split; [done|].
    by rewrite Hrk, Hany.
Qed.

(** C10.  With more than one primary-key column, [load_delta_to_staging]
    matches staged rows on the first alone.  For a delta with modified
    records (and no new one, whose insert would raise before) the one
    statement it sends is the DELETE on the first key column, with the
    values of that column in the modified records.  For a delta that only
    lists deleted ids the one statement it sends is the UPDATE on the first
    key column with these ids, and when the server runs it the call returns
    and has flagged the rows whose first key column holds one of the ids,
    whatever their other key columns hold.  The keys of [detect_changes]
    join the values of all the key columns; and a loader configured with the
    first column alone does the same on every delta. *)
Theorem staging_matches_first_pk_only self pk pk2 pks :
  DeltaLoader.primary_keys self = pk :: pk2 :: pks →
  (∀ delta now db modified_ids,
     len (DeltaResult.new_records delta) = 0 →
     len (DeltaResult.modified_records delta) ≠ 0 →
     get_col (DeltaResult.modified_records delta) pk = Ok modified_ids →
     executed (load_delta_to_staging self delta now db).2 =
       (executed db ++ [DeleteWhereAny pk modified_ids])%list) ∧
  (∀ delta now db,
     len (DeltaResult.new_records delta) = 0 →
     len (DeltaResult.modified_records delta) = 0 →
     DeltaResult.deleted_record_ids delta ≠ [] →
     executed (load_delta_to_staging self delta now db).2 =
       (executed db ++
        [SoftDeleteWhereAny pk now
           (Str <$> DeltaResult.deleted_record_ids delta)])%list ∧
     (where_accepted pk (Str <$> DeltaResult.deleted_record_ids delta) = true →
      (load_delta_to_staging self delta now db).1 = Ok tt ∧
      table (load_delta_to_staging self delta now db).2 =
        (λ r, if eq_any (row_get SqlNull r pk)
                        (Str <$> DeltaResult.deleted_record_ids delta)
              then mark_deleted now r else r) <$> table db)) ∧
  (∀ df keys,
     make_composite_key self df = Ok keys →
     keys = join_key (pk :: pk2 :: pks) <$> rows df) ∧
  (∀ delta now db,
     load_delta_to_staging self delta now db =
     load_delta_to_staging
       (DeltaLoader.mk (DeltaLoader.entity_type self) [pk]
                       (DeltaLoader.previous_state self)) delta now db).
Proof.
  intros Hpk. split; [|split; [|split]].
  - intros delta now db ids Hnew Hmod Hids.
    rewrite load_delta_to_staging_cases. unfold DeltaResult.has_changes.
    rewrite Hnew, Hpk, Hids.
    by destruct (len (DeltaResult.modified_records delta)).
  - intros delta now db Hnew Hmod Hdel.
    rewrite load_delta_to_staging_cases. unfold DeltaResult.has_changes.
    rewrite Hnew, Hmod, Hpk.
    destruct (DeltaResult.deleted_record_ids delta) as [|k ks] eqn:Heq; [done|].
    simpl.
    by destruct (where_accepted pk _).
  - intros df keys. unfold make_composite_key. rewrite Hpk.
    destruct (mapM (get_col df) (pk :: pk2 :: pks)); simpl; [|done].
    by intros [= <-].
  - intros delta now db. rewrite !load_delta_to_staging_cases.
    by rewrite Hpk.
Qed.

(** ** Scenarios *)

Lemma detect_changes_first_run self fs now current_csv schema store cur :
  DeltaLoader.previous_state self = None →
  fs !! current_csv = Some cur →
  (∀ c, c ∈ schema → c ∈ columns cur) →
  detect_changes self fs now current_csv schema store =
    (Ok (all_new self now cur),
     <[DeltaLoader.entity_type self :=
         saved_state self now current_csv schema cur []]> store).
Proof.
  intros Hst Hcur Hcols. apply missing_cols_empty in Hcols.
  unfold detect_changes.
  unfold mbind, eff_bind, lift, raise, lift, read_csv.
  rewrite Hcur, Hst. by case_decide.
Qed.

Lemma detect_changes_compare_run self fs now current_csv schema store st
    cur prev cwf pwf ckey pkey ms us :
  DeltaLoader.previous_state self = Some st →
  fs !! current_csv = Some cur →
  fs !! LoadState.last_csv_path st = Some prev →
  (∀ c, c ∈ schema → c ∈ columns cur) →
  add_fingerprints cur = Ok cwf →
  add_fingerprints prev = Ok pwf →
  make_composite_key self cwf = Ok ckey →
  make_composite_key self pwf = Ok pkey →
  classify_common cur cwf pwf ckey pkey
    (elements (list_to_set ckey ∩ list_to_set pkey : gset string)) = Ok (ms, us) →
  ∃ store',
    detect_changes self fs now current_csv schema store =
      (Ok {| DeltaResult.entity_type := DeltaLoader.entity_type self;
             DeltaResult.new_records :=
               boolean_index cur
                 ((λ k, bool_decide
                          (k ∈ (list_to_set ckey ∖ list_to_set pkey : gset string)))
                    <$> ckey);
             DeltaResult.modified_records :=
               match ms with
               | [] => empty_frame (columns cur)
               | _ => pd_concat ms
               end;
             DeltaResult.deleted_record_ids :=
               elements (list_to_set pkey ∖ list_to_set ckey : gset string);
             DeltaResult.unchanged_record_ids := us;
             DeltaResult.detection_timestamp := now |}, store').
Proof.
  intros Hst Hcur Hprev Hcols Hcf Hpf Hck Hpk Hcl.
  apply missing_cols_empty in Hcols. unfold detect_changes.
  unfold mbind at 1, eff_bind, lift, raise, lift, read_csv.
  rewrite Hcur, Hst. case_decide; [done|]. rewrite Hprev.
  unfold mbind, eff_bind, LoadState.save, mret, eff_ret. simpl.
  rewrite Hcf, Hpf, Hck, Hpk, Hcl. simpl. by eexists.
Qed.

(** The comparison returns: when both snapshots carry the key columns and
    their rows have distinct field names, no step of it raises. *)
Lemma add_fingerprints_returns df :
  Forall (λ r, NoDup (labels r)) (rows df) →
  ∃ fps, length fps = length (rows df) ∧
         add_fingerprints df = Ok (set_col df "_record_fingerprint" (Str <$> fps)).
Proof.
  intros Hnd. unfold add_fingerprints.
  assert (∃ fps, Forall2 (λ r fp, compute_record_fingerprint r = Ok fp)
                         (rows df) fps) as (fps & HF).
  { induction Hnd as [|r rs Hr _ (fps & IH)].
    - exists []. constructor.
    - destruct (sorted_ok r Hr) as (s & Hs & _).
      exists (md5_hexdigest (py_str_items s) :: fps). constructor; [|done].
      unfold compute_record_fingerprint. by rewrite Hs. }
  exists fps. split; [symmetry; by eapply Forall2_length|].
  apply mapM_Ok in HF. by rewrite HF.
Qed.

Lemma iloc0_select_key_mask {A} (xs : list A) (keys : list string) key :
  key ∈ keys → length xs = length keys →
  ∃ x, iloc0 (select xs (key_mask keys key)) = Ok x.
Proof.
  unfold key_mask. revert xs. induction keys as [|k keys IH]; intros xs Hin Hlen.
  - by apply elem_of_nil in Hin.
  - destruct xs as [|x xs]; [done|]. simpl. case_bool_decide as Hk.
    + by exists x.
    + apply elem_of_cons in Hin as [->|Hin]; [done|].
      apply IH; [done|]. simpl in Hlen. lia.
Qed.

Lemma classify_common_returns cur cwf pwf ckey pkey keys :
  has_column cwf "_record_fingerprint" = true →
  has_column pwf "_record_fingerprint" = true →
  length (rows cwf) = length ckey →
  length (rows pwf) = length pkey →
  (∀ key, key ∈ keys → key ∈ ckey ∧ key ∈ pkey) →
  ∃ ms us, classify_common cur cwf pwf ckey pkey keys = Ok (ms, us).
Proof.
  intros Hc Hp Hlc Hlp. induction keys as [|key keys IH]; intros Hkeys; simpl.
  { by exists [], []. }
  destruct (Hkeys key) as [Hkc Hkp]; [by left|].
  destruct (get_col_cases cwf "_record_fingerprint") as [[_ ->]|[E _]];
    [|congruence].
  destruct (get_col_cases pwf "_record_fingerprint") as [[_ ->]|[E _]];
    [|congruence].
  simpl.
  destruct (iloc0_select_key_mask
              ((λ r, row_get NaN r "_record_fingerprint") <$> rows cwf) ckey key)
    as [cfp ->]; [done|by rewrite length_fmap|].
  simpl.
  destruct (iloc0_select_key_mask
              ((λ r, row_get NaN r "_record_fingerprint") <$> rows pwf) pkey key)
    as [pfp ->]; [done|by rewrite length_fmap|].
  simpl.
  destruct IH as (ms & us & ->); [intros k Hk; apply Hkeys; by right|].
  simpl. case_decide; by eexists _, _.
Qed.

Lemma has_column_fingerprint df vals :
  has_column (set_col df "_record_fingerprint" vals) "_record_fingerprint" = true.
Proof.
  unfold has_column at 1. unfold set_col. simpl. apply bool_decide_eq_true.
  unfold has_column. case_bool_decide; [done|].
  apply elem_of_app. right. by left.
Qed.

Lemma make_composite_key_returns self df fps :
  pks_ok (DeltaLoader.primary_keys self) (columns df) = true →
  ∃ keys,
    length keys = length (rows (set_col df "_record_fingerprint" fps)) ∧
    make_composite_key self (set_col df "_record_fingerprint" fps) = Ok keys.
Proof.
  intros Hok. eexists. split; [|apply make_composite_key_Ok; split; [|done]].
  - by rewrite length_fmap.
  - exact Hok.
Qed.

Lemma detect_changes_compare_returns self fs now current_csv schema store st
    cur prev :
  DeltaLoader.previous_state self = Some st →
  fs !! current_csv = Some cur →
  fs !! LoadState.last_csv_path st = Some prev →
  (∀ c, c ∈ schema → c ∈ columns cur) →
  Forall (λ r, NoDup (labels r)) (rows cur) →
  Forall (λ r, NoDup (labels r)) (rows prev) →
  pks_ok (DeltaLoader.primary_keys self) (columns cur) = true →
  pks_ok (DeltaLoader.primary_keys self) (columns prev) = true →
  ∃ delta store',
    detect_changes self fs now current_csv schema store = (Ok delta, store').
Proof.
  intros Hst Hcur Hprev Hcols Hndc Hndp Hokc Hokp.
  destruct (add_fingerprints_returns cur Hndc) as (cfps & Hcl & Hcf).
  destruct (add_fingerprints_returns prev Hndp) as (pfps & Hpl & Hpf).
  destruct (make_composite_key_returns self cur (Str <$> cfps) Hokc)
    as (ckey & Hckl & Hck).
  destruct (make_composite_key_returns self prev (Str <$> pfps) Hokp)
    as (pkey & Hpkl & Hpk).
  destruct (classify_common_returns cur
              (set_col cur "_record_fingerprint" (Str <$> cfps))
              (set_col prev "_record_fingerprint" (Str <$> pfps)) ckey pkey
              (elements (list_to_set ckey ∩ list_to_set pkey : gset string)))
    as (ms & us & Hcl').
  - apply has_column_fingerprint.
  - apply has_column_fingerprint.
  - done.
  - done.
  - intros key. rewrite elem_of_elements, elem_of_intersection,
      !elem_of_list_to_set. done.
  - destruct (detect_changes_compare_run self fs now current_csv schema store
                st cur prev _ _ ckey pkey ms us Hst Hcur Hprev Hcols Hcf Hpf
                Hck Hpk Hcl') as [store' Hrun].
    by eexists _, _.
Qed.

(** One turn of the loop for a key whose two fingerprints agree. *)
Lemma classify_common_unchanged cur cwf pwf ckey pkey key keys cfps pfps fp ms us :
  get_col cwf "_record_fingerprint" = Ok cfps →
  iloc0 (select cfps (key_mask ckey key)) = Ok fp →
  get_col pwf "_record_fingerprint" = Ok pfps →
  iloc0 (select pfps (key_mask pkey key)) = Ok fp →
  classify_common cur cwf pwf ckey pkey keys = Ok (ms, us) →
  classify_common cur cwf pwf ckey pkey (key :: keys) = Ok (ms, key :: us).
Proof.
  intros Hc Hcfp Hp Hpfp Hrest. simpl.
  rewrite Hc. simpl. rewrite Hcfp. simpl. rewrite Hp. simpl. rewrite Hpfp. simpl.
  rewrite Hrest. simpl. by case_decide.
Qed.

Lemma fingerprint_of_sorted_row (r : Row) :
  sorted r = Ok r →
  compute_record_fingerprint r = Ok (md5_hexdigest (py_str_items r)).
Proof. intros H. unfold compute_record_fingerprint. by rewrite H. Qed.

(** C9.  Pure addition: the previous snapshot holds the row (1, A), the
    current one the rows (1, A) and (2, B), the primary key is [id].  After a
    first run over the previous snapshot, the run over the current one
    returns (2, B) as the only new record, no modified record, no deleted id,
    and 1 as the only unchanged id. *)
Theorem pure_addition_scenario :
  let loader0 := DeltaLoader.init "entity" ["id"] ∅ in
  let store1 :=
    (detect_changes loader0 addition_fs 1 "previous.csv" ["id"; "name"] ∅).2 in
  let loader := DeltaLoader.init "entity" ["id"] store1 in
  ∃ delta store2,
    detect_changes loader addition_fs 2 "current.csv" ["id"; "name"] store1 =
      (Ok delta, store2) ∧
    DeltaResult.new_records delta =
      {| columns := ["id"; "name"];
         rows := [[("id", Str "2"); ("name", Str "B")]] |} ∧
    rows (DeltaResult.modified_records delta) = [] ∧
    DeltaResult.deleted_record_ids delta = [] ∧
    DeltaResult.unchanged_record_ids delta = ["1"].
Proof.
  intros loader0 store1 loader.
  assert (∀ c, c ∈ ["id"; "name"] → c ∈ ["id"; "name"]) as Hcols by done.
  (* the first run, over the previous snapshot *)
  assert (store1 = <["entity" :=
            saved_state loader0 1 "previous.csv" ["id"; "name"]
                        addition_previous []]> ∅) as Hstore1.
  { unfold store1.
    by rewrite (detect_changes_first_run loader0 addition_fs 1 "previous.csv"
                  ["id"; "name"] ∅ addition_previous eq_refl eq_refl Hcols). }
  assert (DeltaLoader.previous_state loader =
            Some (saved_state loader0 1 "previous.csv" ["id"; "name"]
                              addition_previous [])) as Hst.
  { unfold loader, DeltaLoader.init, LoadState.load. simpl.
    rewrite Hstore1. apply lookup_insert_eq. }
  (* the fingerprints of the three rows *)
  set (fp1 := md5_hexdigest (py_str_items [("id", Str "1"); ("name", Str "A")])).
  set (fp2 := md5_hexdigest (py_str_items [("id", Str "2"); ("name", Str "B")])).
  assert (add_fingerprints addition_current =
            Ok (set_col addition_current "_record_fingerprint" [Str fp1; Str fp2]))
    as Hcf.
  { unfold add_fingerprints, addition_current. cbn [rows mapM].
    by rewrite !fingerprint_of_sorted_row by (by vm_compute). }
  assert (add_fingerprints addition_previous =
            Ok (set_col addition_previous "_record_fingerprint" [Str fp1]))
    as Hpf.
  { unfold add_fingerprints, addition_previous. cbn [rows mapM].
    by rewrite !fingerprint_of_sorted_row by (by vm_compute). }
  assert (DeltaLoader.primary_keys loader = ["id"]) as Hpks by done.
  assert (addition_fs !! "current.csv" = Some addition_current) as Hcur
    by (by vm_compute).
  assert (addition_fs !! "previous.csv" = Some addition_previous) as Hprev
    by (by vm_compute).
  clearbody fp1 fp2 loader store1. clear Hstore1.
  destruct (detect_changes_compare_run loader addition_fs 2 "current.csv"
              ["id"; "name"] store1 _ addition_current addition_previous
              _ _ ["1"; "2"] ["1"] [] ["1"] Hst Hcur Hprev Hcols Hcf Hpf)
    as [store2 Hrun].
  - unfold make_composite_key. rewrite Hpks. by vm_compute.
  - unfold make_composite_key. rewrite Hpks. by vm_compute.
  - replace (elements (list_to_set ["1"; "2"] ∩ list_to_set ["1"] : gset string))
      with ["1"] by (by vm_compute).
    eapply (classify_common_unchanged _ _ _ _ _ _ _ _ _ (Str fp1));
      [by vm_compute..|done].
  - eexists _, store2. split; [exact Hrun|]. simpl.
    repeat split; by vm_compute.
Qed.

(** C2 (the code at a failing input).  The loader has a state for the entity
    whose snapshot [previous.csv] is no longer on the file system.  The run
    over the current snapshot returns every row as new, and the state store
    is left untouched: it still names the lost [previous.csv], no state for
    the current snapshot was saved. *)
Theorem missing_previous_snapshot_saves_no_state :
  let st := saved_state (DeltaLoader.init "entity" ["id"] ∅) 1 "previous.csv"
              ["id"; "name"] addition_previous [] in
  let store : gmap string LoadState.t := <["entity" := st]> ∅ in
  let fs : gmap string DataFrame := <["current.csv" := addition_current]> ∅ in
  let loader := DeltaLoader.init "entity" ["id"] store in
  ∃ delta store',
    detect_changes loader fs 2 "current.csv" ["id"; "name"] store =
      (Ok delta, store') ∧
    DeltaResult.new_records delta = addition_current ∧
    store' = store ∧
    LoadState.last_csv_path <$> store' !! "entity" = Some "previous.csv".
Proof.
  intros st store fs loader.
  assert (DeltaLoader.previous_state loader = Some st) as Hst.
  { unfold loader, DeltaLoader.init, LoadState.load, store. simpl.
    apply lookup_insert_eq. }
  exists (all_new loader 2 addition_current), store.
  split; [|split; [done|split; [done|]]].
  - apply (previous_snapshot_missing loader fs 2 "current.csv" ["id"; "name"]
             store st addition_current Hst); [by vm_compute|by vm_compute|done].
  - unfold store. by rewrite lookup_insert_eq.
Qed.

(** C7.  [compute_record_fingerprint] is a function of the row, and for a row
    with distinct field names it depends only on the set of its (field, value)
    pairs: the items are sorted by field name before they are serialised and
    hashed, so a row listing the same pairs in another order gets the same
    digest (and the call returns one, it does not raise). *)
Theorem record_fingerprint_order_independent (r1 r2 : Row) :
  NoDup (labels r1) → r1 ≡ₚ r2 →
  ∃ digest,
    compute_record_fingerprint r1 = Ok digest ∧
    compute_record_fingerprint r2 = Ok digest.
Proof.
  intros Hnd Hp. destruct (sorted_perm r1 r2 Hnd Hp) as (s & E1 & E2).
  exists (md5_hexdigest (py_str_items s)).
  unfold compute_record_fingerprint. by rewrite E1, E2.
Qed.

(** ** The dataset fingerprint *)

(** The wrapped sum does not depend on the order of the row hashes: whether
    the dataset fingerprint depends on the order of the rows is decided by
    [hash_pandas_object] alone. *)
Lemma uint64_sum_mod (hs : list Z) :
  uint64_sum hs = (foldr Z.add 0 hs mod 2 ^ 64)%Z.
Proof.
  induction hs as [|h hs IH]; simpl; [done|].
  rewrite IH. apply Zplus_mod_idemp_r.
Qed.

Lemma uint64_sum_perm (hs1 hs2 : list Z) :
  hs1 ≡ₚ hs2 → uint64_sum hs1 = uint64_sum hs2.
Proof.
  intros Hp. rewrite !uint64_sum_mod. f_equal.
  induction Hp; simpl; lia.
Qed.

(** * Further properties of the detector *)

(** What a run that compares two snapshots computed, step by step. *)
Lemma detect_changes_compare_inv self fs now current_csv schema store st cur prev
    delta store' :
  DeltaLoader.previous_state self = Some st →
  fs !! current_csv = Some cur →
  fs !! LoadState.last_csv_path st = Some prev →
  detect_changes self fs now current_csv schema store = (Ok delta, store') →
  ∃ cwf pwf ckey pkey ms us,
    add_fingerprints cur = Ok cwf ∧
    add_fingerprints prev = Ok pwf ∧
    make_composite_key self cwf = Ok ckey ∧
    make_composite_key self pwf = Ok pkey ∧
    classify_common cur cwf pwf ckey pkey
      (elements (list_to_set ckey ∩ list_to_set pkey : gset string)) = Ok (ms, us) ∧
    DeltaResult.new_records delta =
      boolean_index cur
        ((λ k, bool_decide (k ∈ (list_to_set ckey ∖ list_to_set pkey : gset string)))
           <$> ckey) ∧
    DeltaResult.modified_records delta =
      match ms with
      | [] => empty_frame (columns cur)
      | _ => pd_concat ms
      end ∧
    DeltaResult.deleted_record_ids delta =
      elements (list_to_set pkey ∖ list_to_set ckey : gset string) ∧
    DeltaResult.unchanged_record_ids delta = us ∧
    store' =
      <[DeltaLoader.entity_type self :=
          saved_state self now current_csv schema cur
            [("new_count", len (DeltaResult.new_records delta));
             ("modified_count", len (DeltaResult.modified_records delta));
             ("deleted_count", length (DeltaResult.deleted_record_ids delta))]]>
        store.
Proof.
  intros Hst Hcur Hprev. unfold detect_changes.
  unfold mbind at 1, eff_bind, lift, raise, lift, read_csv.
  rewrite Hcur, Hst. case_decide; [done|]. rewrite Hprev.
  unfold mbind, eff_bind, LoadState.save, mret, eff_ret. simpl.
  destruct (add_fingerprints cur) as [cwf|]; [|done].
  destruct (add_fingerprints prev) as [pwf|]; [|done].
  destruct (make_composite_key self cwf) as [ckey|] eqn:Hck; [|done].
  destruct (make_composite_key self pwf) as [pkey|] eqn:Hpk; [|done].
  destruct (classify_common _ _ _ _ _ _) as [[ms us]|] eqn:Hcl; [|done].
  intros [= <- <-]. simpl.
  exists cwf, pwf, ckey, pkey, ms, us. by repeat split.
Qed.

(** The loop over two identical working copies finds every key unchanged. *)
Lemma classify_common_same cur wf keys ks ms us :
  classify_common cur wf wf keys keys ks = Ok (ms, us) → ms = [] ∧ us = ks.
Proof.
  revert ms us. induction ks as [|key ks IH]; intros ms us; simpl.
  { by intros [= <- <-]. }
  destruct (get_col wf _) as [fps|]; simpl; [|done].
  destruct (iloc0 (select fps _)) as [fp|]; simpl; [|done].
  destruct (classify_common cur wf wf keys keys ks) as [[ms' us']|];
    simpl; [|done].
  destruct (IH ms' us' eq_refl) as [-> ->].
  case_decide; [done|]. by intros [= <- <-].
Qed.

Lemma select_all_false {A} (xs : list A) (ks : list string) :
  select xs ((λ _, false) <$> ks) = [].
Proof.
  revert xs. induction ks as [|k ks IH]; intros [|x xs]; simpl; auto.
Qed.

Lemma same_snapshot_no_changes self fs now current_csv schema store st
    cur delta store' :
  DeltaLoader.previous_state self = Some st →
  fs !! current_csv = Some cur →
  fs !! LoadState.last_csv_path st = Some cur →
  detect_changes self fs now current_csv schema store = (Ok delta, store') →
  rows (DeltaResult.new_records delta) = [] ∧
  rows (DeltaResult.modified_records delta) = [] ∧
  DeltaResult.deleted_record_ids delta = [] ∧
  DeltaResult.has_changes delta = false ∧
  ∃ keys, snapshot_keys self cur = Ok keys ∧
          DeltaResult.unchanged_record_ids delta ≡ₚ
            elements (list_to_set keys : gset string).
Proof.
  clear where_accepted.
  intros Hst Hcur Hprev Hrun.
  destruct (detect_changes_compare_inv _ _ _ _ _ _ _ _ _ _ _ Hst Hcur Hprev Hrun)
    as (cwf & pwf & ckey & pkey & ms & us & Hcf & Hpf & Hck & Hpk & Hcl
        & Hnew & Hmod & Hdel & Hun & _).
  assert (pwf = cwf) as -> by congruence.
  assert (pkey = ckey) as -> by congruence.
  apply classify_common_same in Hcl as [-> ->].
  assert ((list_to_set ckey ∖ list_to_set ckey : gset string) = ∅) as Hempty
    by (apply set_eq; intros x; rewrite elem_of_difference; split;
        [tauto|by intros ?%not_elem_of_empty]).
  rewrite Hempty in Hnew, Hdel. rewrite elements_empty in Hdel.
  assert (rows (DeltaResult.new_records delta) = []) as Hnew'.
  { rewrite Hnew. simpl.
    erewrite (list_fmap_ext _ (λ _, false)); [apply select_all_false|].
    intros i k _. apply bool_decide_eq_false. apply not_elem_of_empty. }
  assert (rows (DeltaResult.modified_records delta) = []) as Hmod'
    by (by rewrite Hmod).
  repeat split; try done.
  - unfold DeltaResult.has_changes, len. by rewrite Hnew', Hmod', Hdel.
  - exists ckey. split.
    + unfold snapshot_keys. by rewrite Hcf.
    + rewrite Hun.
      assert ((list_to_set ckey ∩ list_to_set ckey : gset string)
              = list_to_set ckey) as -> by (apply set_eq; intros x;
                rewrite elem_of_intersection; tauto).
      done.
Qed.

(** X1.  A snapshot compared with itself has no changes: when the previous
    state names a file with the content of the current snapshot (the same
    path, or a copy), a run that returns reports no new record, no modified
    record and no deleted id, lists exactly the keys of the snapshot as
    unchanged, and [has_changes] is false. *)
Theorem detect_changes_same_snapshot self fs now current_csv schema store st
    cur delta store' :
  DeltaLoader.previous_state self = Some st →
  fs !! current_csv = Some cur →
  fs !! LoadState.last_csv_path st = Some cur →
  detect_changes self fs now current_csv schema store = (Ok delta, store') →
  rows (DeltaResult.new_records delta) = [] ∧
  rows (DeltaResult.modified_records delta) = [] ∧
  DeltaResult.deleted_record_ids delta = [] ∧
  DeltaResult.has_changes delta = false ∧
  ∃ keys, snapshot_keys self cur = Ok keys ∧
          DeltaResult.unchanged_record_ids delta ≡ₚ
            elements (list_to_set keys : gset string).
Proof. apply same_snapshot_no_changes. Qed.

Lemma get_col_set_col df c vals :
  length vals = length (rows df) → get_col (set_col df c vals) c = Ok vals.
Proof.
  intros Hlen.
  destruct (get_col_cases (set_col df c vals) c) as [[_ ->]|[Hc _]].
  - f_equal. simpl. revert vals Hlen.
    induction (rows df) as [|r rs IH]; intros [|v vals] Hlen; simpl in *;
      try done.
    rewrite row_get_set_eq. f_equal. apply IH. lia.
  - exfalso. revert Hc. unfold has_column at 1. unfold set_col. simpl.
    intros Hc%bool_decide_eq_false. apply Hc.
    unfold has_column. case_bool_decide as Hin; [done|].
    apply elem_of_app. right. by left.
Qed.

Lemma add_fingerprints_inv df wf :
  add_fingerprints df = Ok wf →
  ∃ fps, Forall2 (λ r fp, compute_record_fingerprint r = Ok fp) (rows df) fps ∧
         wf = set_col df "_record_fingerprint" (Str <$> fps).
Proof.
  unfold add_fingerprints.
  destruct (mapM compute_record_fingerprint (rows df)) as [fps|] eqn:E;
    simpl; [|done].
  intros [= <-]. exists fps. split; [by apply mapM_Ok|done].
Qed.

Lemma select_fmap {A B} (f : A → B) xs mask :
  select (f <$> xs) mask = f <$> select xs mask.
Proof.
  revert mask. induction xs as [|x xs IH]; intros [|[] mask]; simpl;
    try done; by rewrite IH.
Qed.

Lemma fp_at_first_row df wf keys key c :
  add_fingerprints df = Ok wf →
  fp_at wf keys key = Ok c →
  ∃ r fp, first_row df keys key = Ok r ∧
          compute_record_fingerprint r = Ok fp ∧ c = Str fp.
Proof.
  intros (fps & HF & ->)%add_fingerprints_inv. unfold fp_at, first_row.
  rewrite get_col_set_col
    by (rewrite length_fmap; symmetry; by eapply Forall2_length).
  simpl. pose proof (Forall2_select _ _ _ (key_mask keys key) HF) as HS.
  rewrite select_fmap.
  destruct HS as [|r fp rs fps' Hr _]; simpl; [done|].
  intros [= <-]. by exists r, fp.
Qed.

Lemma classify_common_sound cur cwf pwf ckey pkey keys ms us :
  classify_common cur cwf pwf ckey pkey keys = Ok (ms, us) →
  (∀ k, k ∈ us → ∃ c, fp_at cwf ckey k = Ok c ∧ fp_at pwf pkey k = Ok c) ∧
  ∃ mk, ms = (λ k, boolean_index cur (key_mask ckey k)) <$> mk ∧
        ∀ k, k ∈ mk → ∃ c p, fp_at cwf ckey k = Ok c ∧
                             fp_at pwf pkey k = Ok p ∧ c ≠ p.
Proof.
  unfold fp_at. revert ms us.
  induction keys as [|key keys IH]; intros ms us; simpl.
  { intros [= <- <-]. split; [by intros k ?%elem_of_nil|].
    exists []. split; [done|]. by intros k ?%elem_of_nil. }
  destruct (get_col cwf _) as [cfps|]; simpl; [|done].
  destruct (iloc0 (select cfps _)) as [cfp|] eqn:Hc; simpl; [|done].
  destruct (get_col pwf _) as [pfps|]; simpl; [|done].
  destruct (iloc0 (select pfps _)) as [pfp|] eqn:Hp; simpl; [|done].
  destruct (classify_common cur cwf pwf ckey pkey keys) as [[ms' us']|];
    simpl; [|done].
  destruct (IH ms' us' eq_refl) as (Hus & mk & -> & Hmk).
  case_decide as Hne; intros [= <- <-].
  - split; [done|]. exists (key :: mk). split; [done|].
    intros k [->|Hk]%elem_of_cons; [|by apply Hmk].
    exists cfp, pfp. by rewrite Hc, Hp.
  - split.
    + intros k [->|Hk]%elem_of_cons; [|by apply Hus].
      exists cfp. rewrite Hc, Hp. split; [done|].
      destruct (decide (cfp = pfp)) as [->|]; [done|]. by destruct Hne.
    + by exists mk.
Qed.

(** X2.  How a key of both snapshots is classified.  In a run that compares,
    an id is reported unchanged only if the first row with that key in the
    current snapshot and the first row with it in the previous one have the
    same fingerprint, and a row is reported modified only if those two rows
    have different fingerprints; in particular the two rows differ, a row
    that did not change is never reported modified. *)
Theorem classification_by_fingerprint self fs now current_csv schema store st
    cur prev delta store' :
  DeltaLoader.previous_state self = Some st →
  fs !! current_csv = Some cur →
  fs !! LoadState.last_csv_path st = Some prev →
  detect_changes self fs now current_csv schema store = (Ok delta, store') →
  ∃ ckey pkey mkey,
    snapshot_keys self cur = Ok ckey ∧
    snapshot_keys self prev = Ok pkey ∧
    snapshot_keys self (DeltaResult.modified_records delta) = Ok mkey ∧
    (∀ k, k ∈ DeltaResult.unchanged_record_ids delta →
       ∃ rc rp fp,
         first_row cur ckey k = Ok rc ∧ first_row prev pkey k = Ok rp ∧
         compute_record_fingerprint rc = Ok fp ∧
         compute_record_fingerprint rp = Ok fp) ∧
    (∀ k, k ∈ mkey →
       ∃ rc rp fc fp,
         first_row cur ckey k = Ok rc ∧ first_row prev pkey k = Ok rp ∧
         compute_record_fingerprint rc = Ok fc ∧
         compute_record_fingerprint rp = Ok fp ∧
         fc ≠ fp ∧ rc ≠ rp).
Proof.
  intros Hst Hcur Hprev Hrun.
  destruct (detect_changes_compare_inv _ _ _ _ _ _ _ _ _ _ _ Hst Hcur Hprev Hrun)
    as (cwf & pwf & ckey & pkey & ms & us & Hcf & Hpf & Hck & Hpk & Hcl
        & Hnew & Hmod & Hdel & Hun & _).
  destruct (classify_common_sound _ _ _ _ _ _ _ _ Hcl) as (Hus & mk & -> & Hmk).
  assert (snapshot_keys self cur = Ok ckey) as Hsk
    by (unfold snapshot_keys; by rewrite Hcf).
  assert (snapshot_keys self prev = Ok pkey) as Hsp
    by (unfold snapshot_keys; by rewrite Hpf).
  exists ckey, pkey, (concat ((λ k, select ckey (key_mask ckey k)) <$> mk)).
  split; [done|]. split; [done|]. split; [|split].
  - rewrite Hmod. destruct mk as [|k mk'].
    + by eapply snapshot_keys_empty_frame.
    + by apply (snapshot_keys_pd_concat self cur ckey (k :: mk')).
  - rewrite Hun. intros k Hk. destruct (Hus k Hk) as (c & Hc & Hp).
    destruct (fp_at_first_row _ _ _ _ _ Hcf Hc) as (rc & fc & Hrc & Hfc & ->).
    destruct (fp_at_first_row _ _ _ _ _ Hpf Hp) as (rp & fp & Hrp & Hfp & [= <-]).
    by exists rc, rp, fc.
  - intros k (l & Hkl & Hl)%elem_of_concat.
    apply list_elem_of_fmap in Hl as (k' & -> & Hk').
    rewrite select_key_mask in Hkl. apply list_elem_of_filter in Hkl as [-> _].
    destruct (Hmk k' Hk') as (c & p & Hc & Hp & Hne).
    destruct (fp_at_first_row _ _ _ _ _ Hcf Hc) as (rc & fc & Hrc & Hfc & ->).
    destruct (fp_at_first_row _ _ _ _ _ Hpf Hp) as (rp & fp & Hrp & Hfp & ->).
    exists rc, rp, fc, fp. repeat split; try done; congruence.
Qed.

Lemma select_new_mask {A} (xs : list A) (ks ckey pkey : list string) :
  (∀ k, k ∈ ks → k ∈ ckey) →
  select xs ((λ k, bool_decide
                (k ∈ (list_to_set ckey ∖ list_to_set pkey : gset string))) <$> ks)
  = (filter (λ xk, xk.2 ∉ pkey) (zip xs ks)).*1.
Proof.
  revert xs. induction ks as [|k ks IH]; intros xs Hks.
  { by destruct xs. }
  destruct xs as [|x xs]; [done|]. simpl.
  assert (k ∈ ckey) as Hk by (apply Hks; by left).
  assert (∀ k', k' ∈ ks → k' ∈ ckey) as Hks' by (intros k' ?; apply Hks; by right).
  rewrite filter_cons. simpl.
  case_bool_decide as Hin; case_decide as Hnin; simpl.
  - by rewrite IH.
  - exfalso. apply elem_of_difference in Hin as [_ Hin].
    apply Hin. rewrite elem_of_list_to_set. exact Hnin.
  - exfalso. apply Hin. apply elem_of_difference.
    rewrite !elem_of_list_to_set. split; [exact Hk|exact Hnin].
  - by apply IH.
Qed.

(** X3.  The new records of a run that compares are the rows of the current
    snapshot whose key does not occur in the previous snapshot, in the order
    and with the multiplicity they have in the current snapshot, under the
    columns of the current snapshot. *)
Theorem new_records_are_current_rows self fs now current_csv schema store st
    cur prev delta store' :
  DeltaLoader.previous_state self = Some st →
  fs !! current_csv = Some cur →
  fs !! LoadState.last_csv_path st = Some prev →
  detect_changes self fs now current_csv schema store = (Ok delta, store') →
  ∃ ckey pkey,
    snapshot_keys self cur = Ok ckey ∧
    snapshot_keys self prev = Ok pkey ∧
    columns (DeltaResult.new_records delta) = columns cur ∧
    rows (DeltaResult.new_records delta) =
      (filter (λ rk, rk.2 ∉ pkey) (zip (rows cur) ckey)).*1.
Proof.
  intros Hst Hcur Hprev Hrun.
  destruct (detect_changes_compare _ _ _ _ _ _ _ _ _ _ _ Hst Hcur Hprev Hrun)
    as (ckey & pkey & mk & Hck & Hpk & Hnew & _).
  exists ckey, pkey. rewrite Hnew. simpl.
  repeat split; try done. by apply select_new_mask.
Qed.

Lemma checkpoint_after_run self fs now current_csv schema store cur
    delta store' pks :
  fs !! current_csv = Some cur →
  (DeltaLoader.previous_state self = None ∨
   ∃ st prev, DeltaLoader.previous_state self = Some st ∧
              fs !! LoadState.last_csv_path st = Some prev) →
  detect_changes self fs now current_csv schema store = (Ok delta, store') →
  ∃ st',
    DeltaLoader.previous_state
      (DeltaLoader.init (DeltaLoader.entity_type self) pks store') = Some st' ∧
    LoadState.last_csv_path st' = current_csv ∧
    LoadState.last_row_count st' = len cur ∧
    LoadState.column_schema st' = schema ∧
    LoadState.primary_keys st' = DeltaLoader.primary_keys self.
Proof.
  intros Hcur [Hst|(st & prev & Hst & Hprev)] Hrun.
  - revert Hrun. unfold detect_changes.
    unfold mbind, eff_bind, lift, raise, lift, read_csv.
    rewrite Hcur, Hst. case_decide; [done|].
    unfold LoadState.save, mret, eff_ret. simpl. intros [= <- <-].
    eexists. unfold DeltaLoader.init, LoadState.load. simpl.
    rewrite lookup_insert_eq. by repeat split.
  - destruct (detect_changes_compare_inv _ _ _ _ _ _ _ _ _ _ _ Hst Hcur Hprev
                Hrun) as (? & ? & ? & ? & ? & ? & _ & _ & _ & _ & _ & _ & _ & _
                          & _ & ->).
    eexists. unfold DeltaLoader.init, LoadState.load. simpl.
    rewrite lookup_insert_eq. by repeat split.
Qed.

(** X5.  The checkpoint a run leaves.  When a run returns and did not take
    the fallback for a lost previous snapshot (there was no previous state,
    or its snapshot could be read), a loader created afterwards for the same
    entity finds a previous state that names the current snapshot, with its
    row count, the expected columns and the key columns of this run. *)
Theorem detect_changes_checkpoint self fs now current_csv schema store cur
    delta store' pks :
  fs !! current_csv = Some cur →
  (DeltaLoader.previous_state self = None ∨
   ∃ st prev, DeltaLoader.previous_state self = Some st ∧
              fs !! LoadState.last_csv_path st = Some prev) →
  detect_changes self fs now current_csv schema store = (Ok delta, store') →
  ∃ st',
    DeltaLoader.previous_state
      (DeltaLoader.init (DeltaLoader.entity_type self) pks store') = Some st' ∧
    LoadState.last_csv_path st' = current_csv ∧
    LoadState.last_row_count st' = len cur ∧
    LoadState.column_schema st' = schema ∧
    LoadState.primary_keys st' = DeltaLoader.primary_keys self.
Proof. apply checkpoint_after_run. Qed.

(** X6.  The expected columns do not cover the key: when the single key
    column is absent from a current snapshot that passes the schema check,
    the comparison raises KeyError for that column, and no state is saved.
    (Rows are taken with distinct field names, so that fingerprinting them
    does not fail first.) *)
Theorem missing_key_column_raises self fs now current_csv schema store st
    cur prev pk :
  DeltaLoader.previous_state self = Some st →
  fs !! current_csv = Some cur →
  fs !! LoadState.last_csv_path st = Some prev →
  (∀ c, c ∈ schema → c ∈ columns cur) →
  Forall (λ r, NoDup (labels r)) (rows cur) →
  Forall (λ r, NoDup (labels r)) (rows prev) →
  DeltaLoader.primary_keys self = [pk] →
  pk ∉ columns cur → pk ≠ "_record_fingerprint" →
  detect_changes self fs now current_csv schema store =
    (Raise (KeyError pk), store).
Proof.
  intros Hst Hcur Hprev Hcols Hndc Hndp Hpk Hnc Hnf.
  apply missing_cols_empty in Hcols.
  destruct (add_fingerprints_returns cur Hndc) as (cfps & _ & Hcf).
  destruct (add_fingerprints_returns prev Hndp) as (pfps & _ & Hpf).
  unfold detect_changes.
  unfold mbind at 1, eff_bind, lift, raise, lift, read_csv.
  rewrite Hcur, Hst. case_decide; [done|]. rewrite Hprev.
  unfold mbind, eff_bind, LoadState.save, mret, eff_ret. simpl.
  rewrite Hcf, Hpf. unfold make_composite_key at 1. rewrite Hpk.
  destruct (get_col_cases (set_col cur "_record_fingerprint" (Str <$> cfps)) pk)
    as [[Hc _]|[_ ->]]; [|done].
  exfalso. revert Hc. unfold has_column at 1. unfold set_col. simpl.
  intros Hc%bool_decide_eq_true. destruct (has_column cur _); [done|].
  apply elem_of_app in Hc as [?|Hc%list_elem_of_singleton]; done.
Qed.

(** * Further properties of the staging loader *)

(** X7.  A load that raises leaves the rows of the staging table as they
    were: every phase works in a transaction of its own that is committed
    at its end only, and the one phase that can return normally, the soft
    delete, comes last.  No row is inserted, removed or flagged by a load
    that fails. *)
Theorem load_failure_leaves_table self delta now db e db' :
  load_delta_to_staging self delta now db = (Raise e, db') →
  table db' = table db.
Proof.
  rewrite load_delta_to_staging_cases.
  destruct (negb (DeltaResult.has_changes delta)); [done|].
  destruct (0 <? len (DeltaResult.new_records delta))%nat; [by intros [= _ <-]|].
  destruct (DeltaLoader.primary_keys self) as [|pk_col rest]; [by intros [= _ <-]|].
  destruct (0 <? len (DeltaResult.modified_records delta))%nat.
  - destruct (get_col _ _); by intros [= _ <-].
  - cbv zeta. destruct (where_accepted pk_col _); [done|by intros [= _ <-]].
Qed.

(** X8.  New records are never staged.  For a delta with a new record the
    insert is the first thing the load does, through [to_sql] on a
    connection of the pool: the call raises DatabaseError, with the staging
    store as it was, and the modified records and the deleted ids of the
    delta are not looked at. *)
Theorem new_records_are_never_staged self delta now db :
  len (DeltaResult.new_records delta) ≠ 0 →
  load_delta_to_staging self delta now db = (Raise DatabaseError, db).
Proof.
  intros Hnew. rewrite load_delta_to_staging_cases.
  unfold DeltaResult.has_changes.
  by destruct (len (DeltaResult.new_records delta)).
Qed.

(** X9.  Modified records are never replaced.  For a delta with a modified
    record the load raises, and the rows of the staging table are as they
    were: the old versions the DELETE removed are back after the rollback,
    the new versions are not staged, and the ids the delta lists as deleted
    are not flagged. *)
Theorem modified_records_are_never_replaced self delta now db :
  len (DeltaResult.modified_records delta) ≠ 0 →
  ∃ e, (load_delta_to_staging self delta now db).1 = Raise e ∧
       table (load_delta_to_staging self delta now db).2 = table db.
Proof.
  intros Hmod. rewrite load_delta_to_staging_cases.
  unfold DeltaResult.has_changes.
  destruct (len (DeltaResult.modified_records delta)); [done|]. simpl.
  rewrite orb_true_r. simpl.
  destruct (0 <? len (DeltaResult.new_records delta))%nat; [by eexists|].
  destruct (DeltaLoader.primary_keys self) as [|pk_col rest]; [by eexists|].
  destruct (get_col _ _); by eexists.
Qed.

(** X10.  The load never adds and never removes a staged row: after any
    call, returned or raised, the table has the rows it had, in their
    places, each one as it was or flagged as deleted at the time of the
    call. *)
Theorem load_only_flags_rows self delta now db :
  length (table (load_delta_to_staging self delta now db).2)
    = length (table db) ∧
  ∀ i r, table db !! i = Some r →
    table (load_delta_to_staging self delta now db).2 !! i = Some r ∨
    table (load_delta_to_staging self delta now db).2 !! i
      = Some (mark_deleted now r).
Proof.
  rewrite load_delta_to_staging_cases.
  destruct (negb (DeltaResult.has_changes delta)); [by auto|].
  destruct (0 <? len (DeltaResult.new_records delta))%nat; [by auto|].
  destruct (DeltaLoader.primary_keys self) as [|pk_col rest]; [by auto|].
  destruct (0 <? len (DeltaResult.modified_records delta))%nat.
  { destruct (get_col _ _); by auto. }
  cbv zeta. destruct (where_accepted pk_col _); [|by auto].
  cbn [snd table exec_stmt]. split; [by rewrite length_fmap|].
  intros i r Hi. unfold StagedRow in *. rewrite !list_lookup_fmap, Hi. simpl.
  destruct (eq_any _ _); auto.
Qed.

(** X11.  Rows of other keys are left alone.  After a load that returns, a
    staged row whose first key column matches neither a value of that column
    in the modified records nor a deleted id is still in the table, as it
    was. *)
Theorem load_keeps_other_rows self delta now db db' pk rest r :
  DeltaLoader.primary_keys self = pk :: rest →
  r ∈ table db →
  (∀ ids, get_col (DeltaResult.modified_records delta) pk = Ok ids →
          eq_any (row_get SqlNull r pk) ids = false) →
  eq_any (row_get SqlNull r pk)
         (Str <$> DeltaResult.deleted_record_ids delta) = false →
  load_delta_to_staging self delta now db = (Ok tt, db') →
  r ∈ table db'.
Proof.
  intros Hpk Hr Hmod Hdel Hload.
  apply load_delta_to_staging_returns in Hload
    as [[-> _]|(pk_col & rest' & Hpk' & _ & _ & _ & ->)]; [done|].
  rewrite Hpk in Hpk'. injection Hpk' as <- <-.
  apply elem_of_soft_delete. exists r. split; [done|]. by rewrite Hdel.
Qed.

Lemma row_set_set_eq {V} (r : list (string * V)) l v w :
  row_set (row_set r l v) l w = row_set r l w.
Proof.
  induction r as [|[l0 x] r IH]; simpl.
  - by rewrite String.eqb_refl.
  - destruct (String.eqb l0 l) eqn:E; simpl; rewrite E; [done|by rewrite IH].
Qed.

Lemma row_set_label {V} (r : list (string * V)) l m w :
  l = m ∨ l ∈ r.*1 → l ∈ (row_set r m w).*1.
Proof.
  induction r as [|[l0 x] r IH]; simpl.
  - intros [->|?%elem_of_nil]; [by left|done].
  - destruct (String.eqb l0 m) eqn:E; simpl.
    + apply String.eqb_eq in E as ->. intros [->|?]; [by left|done].
    + intros [->|[->|?]%elem_of_cons]; [right; apply IH; by left|by left|].
      right. apply IH. by right.
Qed.

Lemma row_set_comm {V} (r : list (string * V)) l m v w :
  l ≠ m → l ∈ r.*1 →
  row_set (row_set r m w) l v = row_set (row_set r l v) m w.
Proof.
  intros Hne. induction r as [|[l0 x] r IH]; simpl.
  { by intros ?%elem_of_nil. }
  intros Hl. destruct (String.eqb l0 m) eqn:Em, (String.eqb l0 l) eqn:El; simpl;
    rewrite ?Em, ?El; try done.
  - apply String.eqb_eq in Em, El. congruence.
  - f_equal. apply IH. apply elem_of_cons in Hl as [->|?]; [|done].
    by rewrite String.eqb_refl in El.
Qed.

Lemma mark_deleted_twice ts1 ts2 r :
  mark_deleted ts2 (mark_deleted ts1 r) = mark_deleted ts2 r.
Proof.
  unfold mark_deleted.
  set (r1 := row_set r "_is_deleted" (SqlBool true)).
  assert ("_is_deleted" ∈ r1.*1) as H1 by (apply row_set_label; by left).
  set (r2 := row_set r1 "_load_timestamp" (SqlTimestamp ts1)).
  assert ("_is_deleted" ∈ r2.*1) as H2 by (apply row_set_label; by right).
  assert ("_load_timestamp" ∈ r2.*1) as H3 by (apply row_set_label; by left).
  rewrite (row_set_comm r2 "_is_deleted" "_load_type") by done.
  unfold r2.
  rewrite (row_set_comm r1 "_is_deleted" "_load_timestamp") by done.
  unfold r1. rewrite row_set_set_eq. fold r1.
  set (r3 := row_set r1 "_load_timestamp" (SqlTimestamp ts1)).
  assert ("_load_timestamp" ∈ r3.*1) as H4 by (apply row_set_label; by left).
  rewrite (row_set_comm r3 "_load_timestamp" "_load_type") by done.
  unfold r3. by rewrite !row_set_set_eq.
Qed.

Lemma soft_delete_twice pk ts1 ts2 ids tbl :
  pk ∉ meta_columns →
  exec_stmt (SoftDeleteWhereAny pk ts2 ids)
            (exec_stmt (SoftDeleteWhereAny pk ts1 ids) tbl)
  = exec_stmt (SoftDeleteWhereAny pk ts2 ids) tbl.
Proof.
  intros Hpk. simpl. rewrite <-list_fmap_compose. apply list_fmap_ext.
  intros _ r _. simpl.
  destruct (eq_any (row_get SqlNull r pk) ids) eqn:E.
  - rewrite mark_deleted_other, E by done. apply mark_deleted_twice.
  - by rewrite E.
Qed.

(** X12.  Loading the same deletions again changes only the timestamp.  For
    a delta that only lists deleted ids, loading it a second time leaves the
    table the second load alone would leave: no row is removed or added, the
    flagged rows stay flagged, with the timestamp of the later load. *)
Theorem soft_delete_is_repeatable self delta now1 now2 db pk rest :
  DeltaLoader.primary_keys self = pk :: rest →
  pk ∉ meta_columns →
  len (DeltaResult.new_records delta) = 0 →
  len (DeltaResult.modified_records delta) = 0 →
  DeltaResult.deleted_record_ids delta ≠ [] →
  let db1 := (load_delta_to_staging self delta now1 db).2 in
  table (load_delta_to_staging self delta now2 db1).2 =
    table (load_delta_to_staging self delta now2 db).2 ∧
  length (table (load_delta_to_staging self delta now2 db1).2) =
    length (table db).
Proof.
  intros Hpk Hmeta Hnew Hmod Hdel db1.
  assert (∀ now d,
    table (load_delta_to_staging self delta now d).2 =
      if where_accepted pk (Str <$> DeltaResult.deleted_record_ids delta)
      then exec_stmt (SoftDeleteWhereAny pk now
                        (Str <$> DeltaResult.deleted_record_ids delta)) (table d)
      else table d) as Hrun.
  { intros now d. rewrite load_delta_to_staging_cases.
    unfold DeltaResult.has_changes. rewrite Hnew, Hmod, Hpk.
    destruct (DeltaResult.deleted_record_ids delta); [done|]. simpl.
    by destruct (where_accepted pk _). }
  unfold db1. rewrite !Hrun.
  destruct (where_accepted pk _); [|done]. split.
  - by apply soft_delete_twice.
  - simpl. by rewrite !length_fmap.
Qed.

(** * Composite keys *)

Lemma append_cons c (s t : string) : (String c s ++ t = String c (s ++ t))%string.
Proof. done. Qed.

Lemma append_nil_l (t : string) : ("" ++ t = t)%string.
Proof. done. Qed.

Lemma append_assoc (a b c : string) : ((a ++ b) ++ c = a ++ (b ++ c))%string.
Proof.
  induction a as [|x a IH]; [done|]. rewrite !append_cons. by rewrite IH.
Qed.

Lemma split_at_sep (x1 x2 s1 s2 : string) :
  has_sep x1 = false → has_sep x2 = false →
  (x1 ++ "_" ++ s1 = x2 ++ "_" ++ s2)%string → x1 = x2 ∧ s1 = s2.
Proof.
  revert x2. induction x1 as [|c x1 IH]; intros [|c' x2];
    rewrite ?append_cons, ?append_nil_l; simpl.
  - intros _ _ [= ->]. done.
  - intros _ [Hc _]%orb_false_elim [= <- _].
    by rewrite Ascii.eqb_refl in Hc.
  - intros [Hc _]%orb_false_elim _ [= -> _].
    by rewrite Ascii.eqb_refl in Hc.
  - intros [_ H1]%orb_false_elim [_ H2]%orb_false_elim [= -> Heq].
    destruct (IH x2 H1 H2 Heq) as [-> ->]. done.
Qed.

Lemma concat_sep_injective (vs1 vs2 : list string) :
  length vs1 = length vs2 →
  Forall (λ v, has_sep v = false) vs1 →
  Forall (λ v, has_sep v = false) vs2 →
  String.concat "_" vs1 = String.concat "_" vs2 → vs1 = vs2.
Proof.
  revert vs2. induction vs1 as [|x1 vs1 IH]; intros [|x2 vs2] Hlen H1 H2;
    try done.
  apply Forall_cons in H1 as [Hx1 H1]. apply Forall_cons in H2 as [Hx2 H2].
  destruct vs1 as [|y1 vs1], vs2 as [|y2 vs2]; try done.
  - simpl. by intros ->.
  - intros Heq.
    change (x1 ++ "_" ++ String.concat "_" (y1 :: vs1)
            = x2 ++ "_" ++ String.concat "_" (y2 :: vs2))%string in Heq.
    destruct (split_at_sep _ _ _ _ Hx1 Hx2 Heq) as [-> Hrest].
    f_equal. apply IH; [simpl in *; congruence|done|done|done].
Qed.

(** X13.  Composite keys can collide.  For a loader keyed by two columns the
    rows (x_y, z) and (x, y_z) get the same composite key x_y_z although they
    differ in both key columns. *)
Theorem composite_key_collisions pk1 pk2 (x y z : string) self :
  pk1 ≠ pk2 →
  DeltaLoader.primary_keys self = [pk1; pk2] →
  make_composite_key self
    {| columns := [pk1; pk2];
       rows := [[(pk1, Str (x ++ "_" ++ y)); (pk2, Str z)];
                [(pk1, Str x); (pk2, Str (y ++ "_" ++ z))]] |}
  = Ok [x ++ "_" ++ y ++ "_" ++ z; x ++ "_" ++ y ++ "_" ++ z].
Proof.
  intros Hne Hpk. apply make_composite_key_Ok; rewrite Hpk. split.
  - simpl. unfold has_column. simpl.
    rewrite !bool_decide_eq_true_2;
      [done|apply list_elem_of_In; simpl; auto..].
  - simpl. unfold join_key. simpl. rewrite !String.eqb_refl.
    assert (String.eqb pk1 pk2 = false) as -> by (by apply String.eqb_neq).
    simpl. by rewrite !append_assoc.
Qed.

(** X14.  Composite keys are faithful when the key values are free of the
    separator: if no key value of a frame contains an underscore, two rows
    that get the same composite key agree, as text, on every key column. *)
Theorem composite_key_injective self df keys i j ri rj k :
  make_composite_key self df = Ok keys →
  (∀ r pk, r ∈ rows df → pk ∈ DeltaLoader.primary_keys self →
           has_sep (astype_str (row_get NaN r pk)) = false) →
  rows df !! i = Some ri → rows df !! j = Some rj →
  keys !! i = Some k → keys !! j = Some k →
  ∀ pk, pk ∈ DeltaLoader.primary_keys self →
        astype_str (row_get NaN ri pk) = astype_str (row_get NaN rj pk).
Proof.
  intros [_ ->]%make_composite_key_Ok Hsep Hi Hj Hki Hkj.
  apply list_lookup_fmap_Some in Hki as (ri' & Hki & Hri').
  apply list_lookup_fmap_Some in Hkj as (rj' & Hkj & Hrj').
  pose proof (eq_trans (eq_sym Hri') Hi) as [= ->].
  pose proof (eq_trans (eq_sym Hrj') Hj) as [= ->].
  assert (row_key (DeltaLoader.primary_keys self) ri
          = row_key (DeltaLoader.primary_keys self) rj) as Hkey by congruence.
  assert (ri ∈ rows df) as Hri by (by eapply list_elem_of_lookup_2).
  assert (rj ∈ rows df) as Hrj by (by eapply list_elem_of_lookup_2).
  assert ((λ pk, astype_str (row_get NaN ri pk)) <$> DeltaLoader.primary_keys self
          = (λ pk, astype_str (row_get NaN rj pk)) <$> DeltaLoader.primary_keys self)
    as Hvals.
  { apply concat_sep_injective.
    - by rewrite !length_fmap.
    - apply Forall_fmap, Forall_forall. intros pk Hpk. by apply Hsep.
    - apply Forall_fmap, Forall_forall. intros pk Hpk. by apply Hsep.
    - revert Hkey. unfold row_key, join_key.
      by destruct (DeltaLoader.primary_keys self) as [|pk [|pk' pks]]. }
  intros pk Hpk. apply list_elem_of_lookup_1 in Hpk as [n Hn].
  apply (f_equal (λ l, l !! n)) in Hvals.
  rewrite !list_lookup_fmap, Hn in Hvals. simpl in Hvals. congruence.
Qed.

(** * The callers: [load_entity_incrementally] and the pipeline stages *)

Lemma load_entity_incrementally_unfold entity current_csv schema pks fs now
    store db :
  load_entity_incrementally entity current_csv schema pks fs now (store, db) =
    let loader := DeltaLoader.init entity pks store in
    match detect_changes loader fs now current_csv schema store with
    | (Raise e, store') => (Raise e, (store', db))
    | (Ok delta, store') =>
        if DeltaResult.has_changes delta then
          match load_delta_to_staging loader delta now db with
          | (Ok _, db') => (Ok delta, (store', db'))
          | (Raise e, db') => (Raise e, (store', db'))
          end
        else (Ok delta, (store', db))
    end.
Proof.
  unfold load_entity_incrementally, mbind, eff_bind, on_fst, on_snd, mret,
    eff_ret. simpl.
  destruct (detect_changes _ _ _ _ _ _) as [[delta|e] store']; simpl; [|done].
  destruct (DeltaResult.has_changes delta); [|done]. simpl.
  by destruct (load_delta_to_staging _ _ _ _) as [[[]|e] db'].
Qed.

Lemma incremental_load_of_unchanged_snapshot_helper entity current_csv schema pks fs
    now store db st cur :
  store !! entity = Some st →
  fs !! current_csv = Some cur →
  fs !! LoadState.last_csv_path st = Some cur →
  (load_entity_incrementally entity current_csv schema pks fs now (store, db)).2.2
  = db.
Proof.
  intros Hst Hcur Hprev. rewrite load_entity_incrementally_unfold. simpl.
  destruct (detect_changes _ _ _ _ _ _) as [[delta|e] store'] eqn:Hrun; [|done].
  assert (DeltaLoader.previous_state (DeltaLoader.init entity pks store) = Some st)
    as Hst' by done.
  destruct (same_snapshot_no_changes _ _ _ _ _ _ _ _ _ _ Hst' Hcur Hprev Hrun)
    as (_ & _ & _ & -> & _).
  done.
Qed.

(** X15.  [load_entity_incrementally] on a snapshot that has the content of
    the previous one (the same file in particular) leaves the staging table
    untouched, whether the detection returns or raises. *)
Theorem incremental_load_of_unchanged_snapshot entity current_csv schema pks fs
    now store db st cur :
  store !! entity = Some st →
  fs !! current_csv = Some cur →
  fs !! LoadState.last_csv_path st = Some cur →
  (load_entity_incrementally entity current_csv schema pks fs now (store, db)).2.2
  = db.
Proof. apply incremental_load_of_unchanged_snapshot_helper. Qed.

(** A load of a delta that has every row of a non-empty snapshot as new. *)
Lemma load_all_new self loader now cur db :
  len cur ≠ 0 →
  DeltaResult.has_changes (all_new self now cur) = true ∧
  load_delta_to_staging loader (all_new self now cur) now db
    = (Raise DatabaseError, db).
Proof.
  intros Hlen.
  assert (DeltaResult.has_changes (all_new self now cur) = true) as Hch.
  { unfold DeltaResult.has_changes. simpl. by destruct (len cur). }
  split; [done|]. rewrite load_delta_to_staging_cases, Hch. simpl.
  by destruct (len cur).
Qed.

(** X16.  A lost snapshot blocks the entity.  When the state of the entity
    names a snapshot file that is gone, [load_entity_incrementally] on a
    snapshot with rows takes every row as new, and the load of these rows
    raises DatabaseError: nothing is staged and the state is left as it
    was, so every later call ends the same way. *)
Theorem lost_snapshot_is_never_loaded entity current_csv schema pks fs now
    store db st cur :
  store !! entity = Some st →
  fs !! LoadState.last_csv_path st = None →
  fs !! current_csv = Some cur →
  (∀ c, c ∈ schema → c ∈ columns cur) →
  len cur ≠ 0 →
  load_entity_incrementally entity current_csv schema pks fs now (store, db)
  = (Raise DatabaseError, (store, db)).
Proof.
  intros Hst Hprev Hcur Hcols Hlen.
  rewrite load_entity_incrementally_unfold. simpl.
  rewrite (previous_snapshot_missing (DeltaLoader.init entity pks store) fs now
             current_csv schema store st cur) by done.
  destruct (load_all_new (DeltaLoader.init entity pks store)
              (DeltaLoader.init entity pks store) now cur db Hlen) as [-> ->].
  done.
Qed.

(** X17.  The rows of a first snapshot are never staged.  The first call of
    [load_entity_incrementally] for an entity without state saves the state
    of the snapshot in the detection and then raises DatabaseError in the
    load: no row is staged.  A second call on the same file compares the
    snapshot with itself: it stages nothing either, and a delta it returns
    has no changes. *)
Theorem first_snapshot_is_never_staged entity current_csv schema pks fs
    now1 now2 store db cur :
  store !! entity = None →
  fs !! current_csv = Some cur →
  (∀ c, c ∈ schema → c ∈ columns cur) →
  len cur ≠ 0 →
  let first := load_entity_incrementally entity current_csv schema pks fs now1
                 (store, db) in
  let second := load_entity_incrementally entity current_csv schema pks fs now2
                  first.2 in
  first.1 = Raise DatabaseError ∧
  first.2.2 = db ∧
  (∃ st, first.2.1 !! entity = Some st ∧
         LoadState.last_csv_path st = current_csv ∧
         LoadState.last_row_count st = len cur) ∧
  second.2.2 = db ∧
  (∀ delta, second.1 = Ok delta → DeltaResult.has_changes delta = false).
Proof.
  intros Hst Hcur Hcols Hlen first second.
  assert (first =
    (Raise DatabaseError,
     (<[entity := saved_state (DeltaLoader.init entity pks store) now1
                    current_csv schema cur []]> store, db))) as Hfirst.
  { unfold first. rewrite load_entity_incrementally_unfold. simpl.
    rewrite (detect_changes_first_run (DeltaLoader.init entity pks store) fs now1
               current_csv schema store cur) by done.
    destruct (load_all_new (DeltaLoader.init entity pks store)
                (DeltaLoader.init entity pks store) now1 cur db Hlen) as [-> ->].
    done. }
  unfold second. rewrite Hfirst. cbn [fst snd].
  split; [done|]. split; [done|]. split.
  { eexists. split; [apply lookup_insert_eq|]. done. }
  set (store1 := <[entity := _]> store).
  assert (store1 !! entity =
            Some (saved_state (DeltaLoader.init entity pks store) now1
                    current_csv schema cur [])) as Hst1 by apply lookup_insert_eq.
  split.
  - by eapply incremental_load_of_unchanged_snapshot_helper.
  - intros delta. rewrite load_entity_incrementally_unfold. simpl.
    destruct (detect_changes _ _ _ _ _ _) as [[delta'|e] store'] eqn:Hrun; [|done].
    eapply same_snapshot_no_changes in Hrun as (_ & _ & _ & Hch & _);
      [|exact Hst1|exact Hcur|exact Hcur].
    rewrite Hch. by intros [= <-].
Qed.

(** The detection stage never touches the staging table, and the staging
    stage never touches the files or the state directory. *)
Lemma delta_detection_stage_staging f now context w :
  staging (delta_detection_stage f now context w).2 = staging w ∧
  full_loads (delta_detection_stage f now context w).2 = full_loads w.
Proof.
  unfold delta_detection_stage.
  destruct (EntityConfig.enable_delta_loading _); simpl; [|done].
  by destruct (detect_changes _ _ _ _ _ _).1.
Qed.

Lemma staging_load_stage_states now context w :
  states (staging_load_stage now context w).2 = states w ∧
  files (staging_load_stage now context w).2 = files w.
Proof.
  unfold staging_load_stage.
  destruct (Context.load_df context) as [load_df|]; [|done].
  destruct (len load_df =? 0)%nat; [done|].
  unfold full_load, mbind, eff_bind.
  destruct (Context.delta context) as [delta|].
  - destruct (DeltaResult.has_changes delta).
    + destruct (Context.loader context) as [loader|]; [|done].
      by destruct (load_delta_to_staging _ _ _ _).1.
    + by destruct (with_connection _ _).1.
  - by destruct (with_connection _ _).1.
Qed.

(** The detection stage when the state of the entity names the temporary
    file of the stage: the file was just overwritten with the current data,
    so the data is compared with itself. *)
Lemma delta_detection_stage_same_file f now context w st context' w' :
  EntityConfig.enable_delta_loading (Context.config context) = true →
  states w !! EntityConfig.entity_type (Context.config context) = Some st →
  LoadState.last_csv_path st =
    temp_csv (EntityConfig.entity_type (Context.config context)) →
  delta_detection_stage f now context w = (Ok context', w') →
  (∃ delta, Context.delta context' = Some delta ∧
            DeltaResult.has_changes delta = false) ∧
  Context.load_df context' =
    Some (empty_frame (columns (Context.cleaned_df context))).
Proof.
  intros Hen Hst Hpath. unfold delta_detection_stage. rewrite Hen. simpl.
  destruct (detect_changes _ _ _ _ _ _) as [[delta|e] store'] eqn:Hrun;
    simpl; [|done].
  intros [= <- <-]. simpl.
  eapply same_snapshot_no_changes in Hrun as (_ & _ & _ & Hch & _).
  - rewrite Hch. split; [by exists delta|done].
  - exact Hst.
  - apply lookup_insert_eq.
  - rewrite Hpath. apply lookup_insert_eq.
Qed.

(** The state the detection stage leaves names its temporary file. *)
Lemma delta_detection_stage_checkpoint f now context w context' w' :
  EntityConfig.enable_delta_loading (Context.config context) = true →
  (states w !! EntityConfig.entity_type (Context.config context) = None ∨
   ∃ st, states w !! EntityConfig.entity_type (Context.config context) = Some st ∧
         LoadState.last_csv_path st =
           temp_csv (EntityConfig.entity_type (Context.config context))) →
  delta_detection_stage f now context w = (Ok context', w') →
  Context.config context' = Context.config context ∧
  ∃ st', states w' !! EntityConfig.entity_type (Context.config context) = Some st' ∧
         LoadState.last_csv_path st' =
           temp_csv (EntityConfig.entity_type (Context.config context)).
Proof.
  intros Hen Hst. unfold delta_detection_stage. rewrite Hen. simpl.
  destruct (detect_changes _ _ _ _ _ _) as [[delta|e] store'] eqn:Hrun;
    simpl; [|done].
  intros [= <- <-]. simpl. split; [done|].
  eapply (checkpoint_after_run _ _ _ _ _ _ _ _ _
            (EntityConfig.primary_keys (Context.config context)))
    in Hrun as (st' & Hst' & Hpath & _).
  - exists st'. split; [exact Hst'|exact Hpath].
  - apply lookup_insert_eq.
  - destruct Hst as [Hnone|(st & Hsome & Hpath)].
    + by left.
    + right. exists st, (f (Context.cleaned_df context)). split; [exact Hsome|].
      rewrite Hpath. apply lookup_insert_eq.
Qed.

(** X18.  After its first run the pipeline finds no change, whatever the
    data.  The detection stage writes the current data to the same temporary
    file on every run and saves that path as the previous snapshot, so from
    the second run on the data is compared with itself: if a first run of the
    two stages for an entity without state ends without error, then in the
    next run, on any data, the detection reports no change and the staging
    stage does nothing, and the staging table is left as it was. *)
Theorem pipeline_finds_no_change_after_first_run f now1 now2 context1 context2 w :
  Context.config context2 = Context.config context1 →
  EntityConfig.enable_delta_loading (Context.config context1) = true →
  states w !! EntityConfig.entity_type (Context.config context1) = None →
  let first := run_stages [delta_detection_stage f now1; staging_load_stage now1]
                 context1 w in
  Context.error first.1 = None →
  let second := run_stages [delta_detection_stage f now2; staging_load_stage now2]
                  context2 first.2 in
  staging second.2 = staging first.2 ∧
  full_loads second.2 = full_loads first.2 ∧
  (Context.error second.1 = None →
   ∃ delta, Context.delta second.1 = Some delta ∧
            DeltaResult.has_changes delta = false).
Proof.
  intros Hcfg Hen Hst first Herr.
  (* the first run: both stages returned, the state names the temporary file *)
  assert (∃ st', states first.2 !! EntityConfig.entity_type (Context.config context1)
                   = Some st' ∧
                 LoadState.last_csv_path st' =
                   temp_csv (EntityConfig.entity_type (Context.config context1)))
    as (st' & Hst' & Hpath).
  { revert Herr. unfold first. simpl.
    destruct (delta_detection_stage f now1 context1 w) as [[c1|e] w1] eqn:H1;
      [|done].
    destruct (delta_detection_stage_checkpoint _ _ _ _ _ _ Hen (or_introl Hst) H1)
      as (_ & st' & Hst' & Hpath).
    pose proof (staging_load_stage_states now1 c1 w1) as [Hs _].
    destruct (staging_load_stage now1 c1 w1) as [[c2|e] w2]; simpl in *;
      intros _; exists st'; by rewrite Hs. }
  clearbody first. intros second. unfold second. simpl.
  rewrite <-Hcfg in Hen, Hst', Hpath.
  pose proof (delta_detection_stage_staging f now2 context2 first.2) as [Hs Hf].
  destruct (delta_detection_stage f now2 context2 first.2) as [[c1|e] w1] eqn:H1;
    simpl in *; [|done].
  destruct (delta_detection_stage_same_file _ _ _ _ _ _ _ Hen Hst' Hpath H1)
    as ((delta & Hdelta & Hch) & Hload).
  unfold staging_load_stage. rewrite Hload. simpl.
  split; [done|]. split; [done|]. intros _. by exists delta.
Qed.

(** X19.  Deletions alone are never staged.  When the detection stage
    returns a delta without new and without modified records, the frame it
    hands to the staging stage is empty and that stage returns at once,
    whatever ids the delta lists as deleted: the staging table is not
    touched, no row is flagged. *)
Theorem deletions_alone_are_not_staged f now context w context' w' delta :
  delta_detection_stage f now context w = (Ok context', w') →
  Context.delta context' = Some delta →
  rows (DeltaResult.new_records delta) = [] →
  rows (DeltaResult.modified_records delta) = [] →
  staging_load_stage now context' w' = (Ok context', w').
Proof.
  unfold delta_detection_stage.
  destruct (EntityConfig.enable_delta_loading _); simpl.
  2:{ intros [= <- <-]. done. }
  destruct (detect_changes _ _ _ _ _ _).1 as [d|e]; [|done].
  intros [= <- <-]. simpl. intros [= ->] Hnew Hmod.
  unfold staging_load_stage. simpl.
  assert (len (if DeltaResult.has_changes delta
               then pd_concat [DeltaResult.new_records delta;
                               DeltaResult.modified_records delta]
               else empty_frame (columns (Context.cleaned_df context))) = 0)
    as ->; [|done].
  destruct (DeltaResult.has_changes delta); [|done].
  unfold len. simpl. by rewrite Hnew, Hmod.
Qed.

(** X20.  With delta loading switched off nothing reaches the staging table.
    The detection stage passes the data on and the staging stage starts a
    full load, whose [to_sql] raises DatabaseError: for data with rows the
    run ends with this error, and the files, the states and the staging
    store are as they were.  For empty data nothing is done at all. *)
Theorem disabled_delta_full_load_fails f now context w :
  EntityConfig.enable_delta_loading (Context.config context) = false →
  let final := run_stages [delta_detection_stage f now; staging_load_stage now]
                 context w in
  files final.2 = files w ∧ states final.2 = states w ∧
  staging final.2 = staging w ∧
  (len (Context.cleaned_df context) ≠ 0 →
   Context.error final.1 = Some DatabaseError ∧
   full_loads final.2 = (full_loads w ++ [Context.cleaned_df context])%list) ∧
  (len (Context.cleaned_df context) = 0 →
   Context.error final.1 = Context.error context ∧ final.2 = w).
Proof.
  intros Hen final. unfold final. simpl.
  unfold delta_detection_stage. rewrite Hen. simpl.
  unfold staging_load_stage. simpl.
  destruct (len (Context.cleaned_df context)) eqn:Hlen; simpl.
  - repeat split; done.
  - destruct (staging w). repeat split; done.
Qed.

(** A load of a delta with a new or a modified record leaves the rows of the
    table as they were. *)
Lemma load_with_records_keeps_table self delta now db :
  len (pd_concat [DeltaResult.new_records delta;
                  DeltaResult.modified_records delta]) ≠ 0 →
  table (load_delta_to_staging self delta now db).2 = table db.
Proof.
  unfold len at 1. simpl. rewrite app_nil_r, length_app. intros Hlen.
  rewrite load_delta_to_staging_cases.
  destruct (negb (DeltaResult.has_changes delta)); [done|].
  destruct (0 <? len (DeltaResult.new_records delta))%nat eqn:Hn; [done|].
  destruct (DeltaLoader.primary_keys self) as [|pk_col rest]; [done|].
  destruct (0 <? len (DeltaResult.modified_records delta))%nat eqn:Hm.
  { by destruct (get_col _ _). }
  apply Nat.ltb_ge in Hn, Hm. unfold len in Hn, Hm. lia.
Qed.

(** X22.  The two stages never change a row of the staging table, with
    delta loading on or off and whatever the data, the state and the table:
    a frame with rows is handed to [to_sql], which raises, and a delta that
    only lists deleted ids gives an empty frame, for which the staging stage
    returns at once. *)
Theorem pipeline_never_changes_staged_rows f now context w :
  table (staging (run_stages [delta_detection_stage f now; staging_load_stage now]
                    context w).2)
  = table (staging w).
Proof.
  simpl. unfold delta_detection_stage.
  destruct (EntityConfig.enable_delta_loading (Context.config context)); simpl.
  - destruct (detect_changes _ _ _ _ _ _) as [[delta|e] store']; simpl; [|done].
    unfold staging_load_stage. simpl.
    destruct (DeltaResult.has_changes delta) eqn:Hch.
    + destruct (len (pd_concat _) =? 0)%nat eqn:Hlen; [done|].
      apply Nat.eqb_neq in Hlen.
      pose proof (load_with_records_keeps_table
                    (DeltaLoader.init (EntityConfig.entity_type (Context.config context))
                       (EntityConfig.primary_keys (Context.config context))
                       (states w)) delta now (staging w) Hlen) as Htbl.
      by destruct (load_delta_to_staging _ _ _ _) as [[[]|e] db'].
    + done.
  - unfold staging_load_stage. simpl.
    by destruct (len (Context.cleaned_df context) =? 0)%nat.
Qed.

(** * The counts of a delta *)

Lemma length_select {A B} (xs : list A) (ys : list B) mask :
  length xs = length ys → length (select xs mask) = length (select ys mask).
Proof.
  revert ys mask. induction xs as [|x xs IH]; intros [|y ys] [|[] mask] Hlen;
    simpl in *; try done; [f_equal|]; apply IH; congruence.
Qed.

Lemma length_filter_eq (l : list string) k :
  NoDup l → k ∈ l → length (filter (λ x, x = k) l) = 1.
Proof.
  induction 1 as [|x l Hx Hnd IH]; [by intros ?%elem_of_nil|].
  rewrite filter_cons. intros Hk. case_decide as Hxk.
  - subst x. simpl. f_equal.
    assert (filter (λ x, x = k) l = []) as ->; [|done].
    clear IH Hnd Hk. induction l as [|y l IH]; [done|].
    apply not_elem_of_cons in Hx as [Hne Hx]. rewrite filter_cons.
    case_decide; [congruence|]. by apply IH.
  - apply IH. apply elem_of_cons in Hk as [->|?]; done.
Qed.

Lemma length_modified_rows (rs : list Row) (ckey mk : list string) :
  length rs = length ckey → NoDup ckey → (∀ k, k ∈ mk → k ∈ ckey) →
  length (concat ((λ k, select rs (key_mask ckey k)) <$> mk)) = length mk.
Proof.
  intros Hlen Hnd. induction mk as [|k mk IH]; intros Hmk; csimpl; [done|].
  rewrite length_app, IH by (intros k' ?; apply Hmk; by right).
  rewrite (length_select rs ckey) by done.
  rewrite select_key_mask, length_filter_eq; [done|done|]. apply Hmk. by left.
Qed.

Lemma size_split (C P : gset string) :
  size (C ∖ P) + size (C ∩ P) = size C.
Proof.
  clear where_accepted py_repr_str md5_hexdigest.
  rewrite <-size_union.
  2:{ apply elem_of_disjoint. intros x.
      rewrite elem_of_difference, elem_of_intersection. tauto. }
  f_equal. apply set_eq. intros x.
  rewrite elem_of_union, elem_of_difference, elem_of_intersection.
  destruct (decide (x ∈ P)); tauto.
Qed.

(** X21.  The counts of a delta add up when keys are unique.  In a run that
    compares, if no two rows of the current snapshot share a key, the new,
    modified and unchanged counts sum to the number of current rows; if the
    same holds for the previous snapshot, the deleted, modified and
    unchanged counts sum to the number of previous rows. *)
Theorem delta_counts_add_up self fs now current_csv schema store st
    cur prev delta store' :
  DeltaLoader.previous_state self = Some st →
  fs !! current_csv = Some cur →
  fs !! LoadState.last_csv_path st = Some prev →
  detect_changes self fs now current_csv schema store = (Ok delta, store') →
  ∃ ckey pkey,
    snapshot_keys self cur = Ok ckey ∧
    snapshot_keys self prev = Ok pkey ∧
    (NoDup ckey →
     len (DeltaResult.new_records delta)
       + len (DeltaResult.modified_records delta)
       + length (DeltaResult.unchanged_record_ids delta) = len cur) ∧
    (NoDup ckey → NoDup pkey →
     length (DeltaResult.deleted_record_ids delta)
       + len (DeltaResult.modified_records delta)
       + length (DeltaResult.unchanged_record_ids delta) = len prev).
Proof.
  clear where_accepted.
  intros Hst Hcur Hprev Hrun.
  destruct (detect_changes_compare _ _ _ _ _ _ _ _ _ _ _ Hst Hcur Hprev Hrun)
    as (ckey & pkey & mk & Hck & Hpk & Hnew & Hmod & Hdel & Hp).
  exists ckey, pkey. split; [done|]. split; [done|].
  assert (length (rows cur) = length ckey) as Hlc.
  { apply snapshot_keys_Ok in Hck as [_ HF]. by eapply Forall2_length. }
  assert (length (rows prev) = length pkey) as Hlp.
  { apply snapshot_keys_Ok in Hpk as [_ HF]. by eapply Forall2_length. }
  assert (∀ k, k ∈ mk → k ∈ ckey) as Hmk.
  { intros k Hk.
    assert (k ∈ elements (list_to_set ckey ∩ list_to_set pkey : gset string)) as Hin
      by (rewrite <-Hp; apply elem_of_app; by left).
    apply elem_of_elements, elem_of_intersection in Hin as [Hin _].
    by apply elem_of_list_to_set in Hin. }
  assert (length mk + length (DeltaResult.unchanged_record_ids delta)
          = size (list_to_set ckey ∩ list_to_set pkey : gset string)) as Hcommon.
  { rewrite <-length_app, Hp. done. }
  assert (NoDup ckey → len (DeltaResult.modified_records delta) = length mk)
    as Hlen_mod.
  { intros Hnd. rewrite Hmod. unfold len. destruct mk as [|k mk']; [done|].
    change (rows (pd_concat ((λ k0, boolean_index cur (key_mask ckey k0))
                               <$> k :: mk')))
      with (concat (rows <$> ((λ k0, boolean_index cur (key_mask ckey k0))
                                <$> k :: mk'))).
    rewrite <-list_fmap_compose. by apply length_modified_rows. }
  split.
  - intros Hnd. rewrite Hlen_mod by done.
    assert (len (DeltaResult.new_records delta)
            = size (list_to_set ckey ∖ list_to_set pkey : gset string)) as ->.
    { rewrite Hnew. unfold len. simpl.
      rewrite (length_select (rows cur) ckey) by done.
      rewrite select_elem_mask.
      rewrite <-(size_list_to_set (C := gset string)) by (by apply NoDup_filter).
      f_equal. apply set_eq. intros x.
      rewrite elem_of_list_to_set, list_elem_of_filter, elem_of_difference,
        !elem_of_list_to_set. tauto. }
    unfold len. rewrite Hlc, <-Nat.add_assoc, Hcommon, size_split.
    by apply size_list_to_set.
  - intros Hndc Hndp. rewrite Hlen_mod by done.
    rewrite Hdel. unfold len. rewrite Hlp, <-Nat.add_assoc, Hcommon.
    assert ((list_to_set ckey ∩ list_to_set pkey : gset string)
            = list_to_set pkey ∩ list_to_set ckey) as ->
      by (apply set_eq; intros x; rewrite !elem_of_intersection; tauto).
    change (length (elements ?X)) with (size X).
    rewrite size_split. by apply size_list_to_set.
Qed.

End Detection.

(** * The theorems on the sample data *)

(** The partition theorem on the pure addition. *)
Lemma detect_changes_partition_witness :
  ∃ ckey pkey nkey mkey,
    snapshot_keys sample_repr sample_md5 sample_loader addition_current = Ok ckey ∧
    snapshot_keys sample_repr sample_md5 sample_loader addition_previous = Ok pkey ∧
    snapshot_keys sample_repr sample_md5 sample_loader
      (DeltaResult.new_records addition_delta) = Ok nkey ∧
    snapshot_keys sample_repr sample_md5 sample_loader
      (DeltaResult.modified_records addition_delta) = Ok mkey ∧
    let current_keys : gset string := list_to_set ckey in
    let previous_keys : gset string := list_to_set pkey in
    let new_keys : gset string := list_to_set nkey in
    let modified_keys : gset string := list_to_set mkey in
    let deleted_keys : gset string :=
      list_to_set (DeltaResult.deleted_record_ids addition_delta) in
    let unchanged_keys : gset string :=
      list_to_set (DeltaResult.unchanged_record_ids addition_delta) in
    new_keys ## modified_keys ∧ new_keys ## deleted_keys ∧
    new_keys ## unchanged_keys ∧ modified_keys ## deleted_keys ∧
    modified_keys ## unchanged_keys ∧ deleted_keys ## unchanged_keys ∧
    new_keys ∪ modified_keys ∪ deleted_keys ∪ unchanged_keys =
      current_keys ∪ previous_keys.
Proof.
  apply (detect_changes_partition sample_repr sample_md5 sample_hash
           sample_loader addition_fs 2 "current.csv" ["id"; "name"]
           sample_store sample_state addition_current addition_previous
           addition_delta
           (detect_changes sample_repr sample_md5 sample_hash sample_loader
              addition_fs 2 "current.csv" ["id"; "name"] sample_store).2).
  - reflexivity.
  - vm_compute. reflexivity.
  - vm_compute. reflexivity.
  - vm_compute. reflexivity.
Defined.

(** A first run over the previous snapshot of the scenario. *)
Lemma first_run_all_new_witness :
  ∃ delta st,
    detect_changes sample_repr sample_md5 sample_hash
      (DeltaLoader.init "entity" ["id"] ∅) addition_fs 1 "previous.csv"
      ["id"; "name"] ∅ = (Ok delta, <["entity" := st]> ∅) ∧
    DeltaResult.new_records delta = addition_previous ∧
    len (DeltaResult.new_records delta) = 1 ∧
    len (DeltaResult.modified_records delta) = 0 ∧
    length (DeltaResult.deleted_record_ids delta) = 0 ∧
    length (DeltaResult.unchanged_record_ids delta) = 0 ∧
    LoadState.last_row_count st = 1.
Proof.
  apply (first_run_all_new sample_repr sample_md5 sample_hash
           (DeltaLoader.init "entity" ["id"] ∅) addition_fs 1 "previous.csv"
           ["id"; "name"] ∅ addition_previous 1).
  - reflexivity.
  - vm_compute. reflexivity.
  - intros c Hc. exact Hc.
  - reflexivity.
Defined.

(** The current snapshot has no column [email]. *)
Lemma missing_column_fails_closed_witness :
  ∃ missing_cols,
    detect_changes sample_repr sample_md5 sample_hash sample_loader addition_fs
      2 "current.csv" ["id"; "email"] sample_store =
      (Raise (ValueError missing_cols), sample_store) ∧
    "email" ∈ missing_cols.
Proof.
  apply (missing_column_fails_closed sample_repr sample_md5 sample_hash
           sample_loader addition_fs 2 "current.csv" ["id"; "email"]
           sample_store addition_current "email").
  - vm_compute. reflexivity.
  - apply (bool_decide_unpack _). vm_compute. exact I.
  - apply (bool_decide_unpack _). vm_compute. exact I.
Defined.

(** Loading a delta without changes into an empty staging table. *)
Lemma no_changes_no_staging_operation_witness :
  DeltaResult.has_changes unchanged_delta = false ∧
  load_delta_to_staging sample_server sample_loader unchanged_delta 3
    empty_staging = (Ok tt, empty_staging).
Proof.
  split; [reflexivity|].
  apply (no_changes_no_staging_operation sample_server sample_loader
           unchanged_delta 3 empty_staging).
  reflexivity.
Defined.

(** The row (1, A) with its two fields in either order. *)
Lemma record_fingerprint_order_independent_witness :
  ∃ digest,
    compute_record_fingerprint sample_repr sample_md5
      [("id", Str "1"); ("name", Str "A")] = Ok digest ∧
    compute_record_fingerprint sample_repr sample_md5
      [("name", Str "A"); ("id", Str "1")] = Ok digest.
Proof.
  apply (record_fingerprint_order_independent sample_repr sample_md5
           [("id", Str "1"); ("name", Str "A")]
           [("name", Str "A"); ("id", Str "1")]).
  - apply (bool_decide_unpack _). vm_compute. exact I.
  - apply perm_swap.
Defined.

(** Deleting key 1 with the staged row (1, A), the loader keyed by [id]. *)
Lemma soft_delete_flags_single_pk_witness :
  let db' := (load_delta_to_staging sample_server sample_loader
                (deletion_delta ["id"; "name"] "1") 3 sample_staging).2 in
  (∃ r', r' ∈ table db' ∧ row_get SqlNull r' "id" = SqlText "1") ∧
  (∀ r', r' ∈ table db' → row_get SqlNull r' "id" = SqlText "1" →
     row_get SqlNull r' "_is_deleted" = SqlBool true ∧
     row_get SqlNull r' "_load_type" = SqlText "delete" ∧
     row_get SqlNull r' "_load_timestamp" = SqlTimestamp 3) ∧
  ((∀ ids, get_col (DeltaResult.modified_records
                      (deletion_delta ["id"; "name"] "1")) "id" = Ok ids →
           Str "1" ∉ ids) →
   mark_deleted 3 sample_staged_row ∈ table db').
Proof.
  apply (soft_delete_flags_single_pk sample_server sample_loader
           (deletion_delta ["id"; "name"] "1") 3 sample_staging
           (load_delta_to_staging sample_server sample_loader
              (deletion_delta ["id"; "name"] "1") 3 sample_staging).2
           "id" "1" sample_staged_row).
  - reflexivity.
  - apply (bool_decide_unpack _). vm_compute. exact I.
  - apply (bool_decide_unpack _). vm_compute. exact I.
  - apply (bool_decide_unpack _). vm_compute. exact I.
  - reflexivity.
  - vm_compute. reflexivity.
Defined.

(** C6 (counterexample).  The loader is keyed by the columns [a] and [b]; the
    staging table holds the row (1, 2), whose composite key is 1_2.  Loading
    a delta that lists 1_2 as deleted returns, the server has run the soft
    delete, and the table is as it was: the row for 1_2 is not flagged. *)
Lemma soft_delete_misses_composite_key :
  join_key (DeltaLoader.primary_keys composite_loader) composite_row = "1_2" ∧
  "1_2" ∈ DeltaResult.deleted_record_ids (deletion_delta ["a"; "b"] "1_2") ∧
  ∃ db',
    load_delta_to_staging sample_server composite_loader
      (deletion_delta ["a"; "b"] "1_2") 2 composite_staging = (Ok tt, db') ∧
    executed db' = [SoftDeleteWhereAny "a" 2 [Str "1_2"]] ∧
    table db' = [composite_staged_row] ∧
    ¬ ∃ r', r' ∈ table db' ∧ row_get SqlNull r' "_is_deleted" = SqlBool true.
Proof.
  split; [reflexivity|].
  split; [by apply list_elem_of_singleton|].
  eexists. split; [by vm_compute|]. simpl.
  split; [reflexivity|]. split; [reflexivity|].
  intros (r' & Hr' & Hflag). apply list_elem_of_singleton in Hr' as ->.
  discriminate Hflag.
Qed.

(** The loader keyed by [a] and [b], the staged rows (1, 2) and (1, 3): the
    modified record (1, 2) sends a DELETE for every row whose [a] is 1, and
    the deleted id 1 flags both rows. *)
Lemma staging_matches_first_pk_only_witness :
  executed (load_delta_to_staging sample_server composite_loader
              composite_update_delta 3 composite_pair_staging).2
    = [DeleteWhereAny "a" [Str "1"]] ∧
  (load_delta_to_staging sample_server composite_loader
     (deletion_delta ["a"; "b"] "1") 3 composite_pair_staging).1 = Ok tt ∧
  table (load_delta_to_staging sample_server composite_loader
           (deletion_delta ["a"; "b"] "1") 3 composite_pair_staging).2
    = [mark_deleted 3 composite_staged_row;
       mark_deleted 3 composite_staged_row'] ∧
  make_composite_key composite_loader composite_frame = Ok ["1_2"; "1_2"].
Proof.
  destruct (staging_matches_first_pk_only sample_server composite_loader
              "a" "b" [] eq_refl) as (Hdelete & Hupdate & Hkeys & _).
  split.
  { apply (Hdelete composite_update_delta 3%Z composite_pair_staging [Str "1"]).
    - reflexivity.
    - vm_compute. discriminate.
    - vm_compute. reflexivity. }
  destruct (Hupdate (deletion_delta ["a"; "b"] "1") 3%Z composite_pair_staging)
    as [_ Hrun].
  - reflexivity.
  - reflexivity.
  - discriminate.
  - destruct Hrun as [Hok Htable]; [vm_compute; reflexivity|].
    split; [exact Hok|]. split; [exact Htable|].
    vm_compute. reflexivity.
Defined.

(** * The further properties on the sample data *)

(** The previous snapshot compared with itself. *)
Lemma detect_changes_same_snapshot_witness :
  rows (DeltaResult.new_records unchanged_delta) = [] ∧
  rows (DeltaResult.modified_records unchanged_delta) = [] ∧
  DeltaResult.deleted_record_ids unchanged_delta = [] ∧
  DeltaResult.has_changes unchanged_delta = false ∧
  ∃ keys, snapshot_keys sample_repr sample_md5 sample_loader addition_previous
            = Ok keys ∧
          DeltaResult.unchanged_record_ids unchanged_delta ≡ₚ
            elements (list_to_set keys : gset string).
Proof.
  apply (detect_changes_same_snapshot sample_repr sample_md5 sample_hash
           sample_loader addition_fs 2 "previous.csv" ["id"; "name"]
           sample_store sample_state addition_previous unchanged_delta
           (detect_changes sample_repr sample_md5 sample_hash sample_loader
              addition_fs 2 "previous.csv" ["id"; "name"] sample_store).2).
  - reflexivity.
  - vm_compute. reflexivity.
  - vm_compute. reflexivity.
  - vm_compute. reflexivity.
Defined.

(** The classification in the pure addition. *)
Lemma classification_by_fingerprint_witness :
  ∃ ckey pkey mkey,
    snapshot_keys sample_repr sample_md5 sample_loader addition_current = Ok ckey ∧
    snapshot_keys sample_repr sample_md5 sample_loader addition_previous = Ok pkey ∧
    snapshot_keys sample_repr sample_md5 sample_loader
      (DeltaResult.modified_records addition_delta) = Ok mkey ∧
    (∀ k, k ∈ DeltaResult.unchanged_record_ids addition_delta →
       ∃ rc rp fp,
         first_row addition_current ckey k = Ok rc ∧
         first_row addition_previous pkey k = Ok rp ∧
         compute_record_fingerprint sample_repr sample_md5 rc = Ok fp ∧
         compute_record_fingerprint sample_repr sample_md5 rp = Ok fp) ∧
    (∀ k, k ∈ mkey →
       ∃ rc rp fc fp,
         first_row addition_current ckey k = Ok rc ∧
         first_row addition_previous pkey k = Ok rp ∧
         compute_record_fingerprint sample_repr sample_md5 rc = Ok fc ∧
         compute_record_fingerprint sample_repr sample_md5 rp = Ok fp ∧
         fc ≠ fp ∧ rc ≠ rp).
Proof.
  apply (classification_by_fingerprint sample_repr sample_md5 sample_hash
           sample_loader addition_fs 2 "current.csv" ["id"; "name"]
           sample_store sample_state addition_current addition_previous
           addition_delta
           (detect_changes sample_repr sample_md5 sample_hash sample_loader
              addition_fs 2 "current.csv" ["id"; "name"] sample_store).2).
  - reflexivity.
  - vm_compute. reflexivity.
  - vm_compute. reflexivity.
  - vm_compute. reflexivity.
Defined.

(** The new record of the pure addition. *)
Lemma new_records_are_current_rows_witness :
  ∃ ckey pkey,
    snapshot_keys sample_repr sample_md5 sample_loader addition_current = Ok ckey ∧
    snapshot_keys sample_repr sample_md5 sample_loader addition_previous = Ok pkey ∧
    columns (DeltaResult.new_records addition_delta) = columns addition_current ∧
    rows (DeltaResult.new_records addition_delta) =
      (filter (λ rk, rk.2 ∉ pkey) (zip (rows addition_current) ckey)).*1.
Proof.
  apply (new_records_are_current_rows sample_repr sample_md5 sample_hash
           sample_loader addition_fs 2 "current.csv" ["id"; "name"]
           sample_store sample_state addition_current addition_previous
           addition_delta
           (detect_changes sample_repr sample_md5 sample_hash sample_loader
              addition_fs 2 "current.csv" ["id"; "name"] sample_store).2).
  - reflexivity.
  - vm_compute. reflexivity.
  - vm_compute. reflexivity.
  - vm_compute. reflexivity.
Defined.

(** The checkpoint after the pure addition. *)
Lemma detect_changes_checkpoint_witness :
  ∃ st',
    DeltaLoader.previous_state
      (DeltaLoader.init (DeltaLoader.entity_type sample_loader) ["id"]
         (detect_changes sample_repr sample_md5 sample_hash sample_loader
            addition_fs 2 "current.csv" ["id"; "name"] sample_store).2)
      = Some st' ∧
    LoadState.last_csv_path st' = "current.csv" ∧
    LoadState.last_row_count st' = len addition_current ∧
    LoadState.column_schema st' = ["id"; "name"] ∧
    LoadState.primary_keys st' = DeltaLoader.primary_keys sample_loader.
Proof.
  apply (detect_changes_checkpoint sample_repr sample_md5 sample_hash
           sample_loader addition_fs 2 "current.csv" ["id"; "name"]
           sample_store addition_current addition_delta
           (detect_changes sample_repr sample_md5 sample_hash sample_loader
              addition_fs 2 "current.csv" ["id"; "name"] sample_store).2 ["id"]).
  - vm_compute. reflexivity.
  - right. exists sample_state, addition_previous. split.
    + reflexivity.
    + vm_compute. reflexivity.
  - vm_compute. reflexivity.
Defined.

(** The snapshots of the scenario have no column [key]. *)
Lemma missing_key_column_raises_witness :
  detect_changes sample_repr sample_md5 sample_hash key_loader addition_fs 2
    "current.csv" ["id"; "name"] sample_store
  = (Raise (KeyError "key"), sample_store).
Proof.
  apply (missing_key_column_raises sample_repr sample_md5 sample_hash key_loader
           addition_fs 2 "current.csv" ["id"; "name"] sample_store sample_state
           addition_current addition_previous "key").
  - reflexivity.
  - vm_compute. reflexivity.
  - vm_compute. reflexivity.
  - intros c Hc. exact Hc.
  - apply (bool_decide_unpack _). vm_compute. exact I.
  - apply (bool_decide_unpack _). vm_compute. exact I.
  - reflexivity.
  - apply (bool_decide_unpack _). vm_compute. exact I.
  - vm_compute. discriminate.
Defined.

(** The counts of the pure addition. *)
Lemma delta_counts_add_up_witness :
  ∃ ckey pkey,
    snapshot_keys sample_repr sample_md5 sample_loader addition_current = Ok ckey ∧
    snapshot_keys sample_repr sample_md5 sample_loader addition_previous = Ok pkey ∧
    (NoDup ckey →
     len (DeltaResult.new_records addition_delta)
       + len (DeltaResult.modified_records addition_delta)
       + length (DeltaResult.unchanged_record_ids addition_delta)
     = len addition_current) ∧
    (NoDup ckey → NoDup pkey →
     length (DeltaResult.deleted_record_ids addition_delta)
       + len (DeltaResult.modified_records addition_delta)
       + length (DeltaResult.unchanged_record_ids addition_delta)
     = len addition_previous).
Proof.
  apply (delta_counts_add_up sample_repr sample_md5 sample_hash
           sample_loader addition_fs 2 "current.csv" ["id"; "name"]
           sample_store sample_state addition_current addition_previous
           addition_delta
           (detect_changes sample_repr sample_md5 sample_hash sample_loader
              addition_fs 2 "current.csv" ["id"; "name"] sample_store).2).
  - reflexivity.
  - vm_compute. reflexivity.
  - vm_compute. reflexivity.
  - vm_compute. reflexivity.
Defined.


(** The modified record (1, B): the DELETE is sent, the insert raises. *)
Lemma load_failure_leaves_table_witness :
  table (load_delta_to_staging sample_server sample_loader update_delta 3
           sample_staging).2
  = table sample_staging.
Proof.
  apply (load_failure_leaves_table sample_server sample_loader update_delta 3
           sample_staging DatabaseError
           (load_delta_to_staging sample_server sample_loader update_delta 3
              sample_staging).2).
  vm_compute. reflexivity.
Defined.

(** One new record. *)
Lemma new_records_are_never_staged_witness :
  load_delta_to_staging sample_server sample_loader
    (insertion_delta ["id"; "name"] [("id", Str "2"); ("name", Str "B")]) 3
    sample_staging
  = (Raise DatabaseError, sample_staging).
Proof.
  apply (new_records_are_never_staged sample_server sample_loader
           (insertion_delta ["id"; "name"] [("id", Str "2"); ("name", Str "B")])
           3 sample_staging).
  vm_compute. discriminate.
Defined.

(** The staged row (1, A) and the modified record (1, B). *)
Lemma modified_records_are_never_replaced_witness :
  ∃ e, (load_delta_to_staging sample_server sample_loader update_delta 3
          sample_staging).1 = Raise e ∧
       table (load_delta_to_staging sample_server sample_loader update_delta 3
                sample_staging).2 = table sample_staging.
Proof.
  apply (modified_records_are_never_replaced sample_server sample_loader
           update_delta 3 sample_staging).
  vm_compute. discriminate.
Defined.

(** The staged row of key 1 when the id 2 is deleted. *)
Lemma load_keeps_other_rows_witness :
  sample_staged_row ∈
    table (load_delta_to_staging sample_server sample_loader
             (deletion_delta ["id"; "name"] "2") 3 sample_staging).2.
Proof.
  apply (load_keeps_other_rows sample_server sample_loader
           (deletion_delta ["id"; "name"] "2") 3 sample_staging
           (load_delta_to_staging sample_server sample_loader
              (deletion_delta ["id"; "name"] "2") 3 sample_staging).2
           "id" [] sample_staged_row).
  - reflexivity.
  - apply (bool_decide_unpack _). vm_compute. exact I.
  - intros ids [= <-]. reflexivity.
  - reflexivity.
  - vm_compute. reflexivity.
Defined.

(** The id 1 deleted at time 3 and again at time 4. *)
Lemma soft_delete_is_repeatable_witness :
  let delta := deletion_delta ["id"; "name"] "1" in
  let db1 := (load_delta_to_staging sample_server sample_loader delta 3
                sample_staging).2 in
  table (load_delta_to_staging sample_server sample_loader delta 4 db1).2 =
    table (load_delta_to_staging sample_server sample_loader delta 4
             sample_staging).2 ∧
  length (table (load_delta_to_staging sample_server sample_loader delta 4 db1).2) =
    length (table sample_staging).
Proof.
  apply (soft_delete_is_repeatable sample_server sample_loader
           (deletion_delta ["id"; "name"] "1") 3 4 sample_staging "id" []).
  - reflexivity.
  - apply (bool_decide_unpack _). vm_compute. exact I.
  - reflexivity.
  - reflexivity.
  - discriminate.
Defined.

(** The rows (1_2, 3) and (1, 2_3) of a loader keyed by [a] and [b]. *)
Lemma composite_key_collisions_witness :
  make_composite_key composite_loader
    {| columns := ["a"; "b"];
       rows := [[("a", Str ("1" ++ "_" ++ "2")); ("b", Str "3")];
                [("a", Str "1"); ("b", Str ("2" ++ "_" ++ "3"))]] |}
  = Ok ["1" ++ "_" ++ "2" ++ "_" ++ "3"; "1" ++ "_" ++ "2" ++ "_" ++ "3"].
Proof.
  apply (composite_key_collisions "a" "b" "1" "2" "3" composite_loader).
  - discriminate.
  - reflexivity.
Defined.

(** Two rows of key 1_2 that differ in the column [c]. *)
Lemma composite_key_injective_witness :
  astype_str (row_get NaN (composite_row ++ [("c", Str "x")])%list "b")
  = astype_str (row_get NaN (composite_row ++ [("c", Str "y")])%list "b").
Proof.
  apply (composite_key_injective composite_loader composite_frame
           ["1_2"; "1_2"] 0 1 _ _ "1_2").
  - vm_compute. reflexivity.
  - intros r pk Hr Hpk.
    apply list_elem_of_In in Hr. apply list_elem_of_In in Hpk.
    simpl in Hr, Hpk.
    destruct Hr as [<-|[<-|[]]]; destruct Hpk as [<-|[<-|[]]]; reflexivity.
  - reflexivity.
  - reflexivity.
  - reflexivity.
  - reflexivity.
  - apply (bool_decide_unpack _). vm_compute. exact I.
Defined.

(** The previous snapshot loaded again. *)
Lemma incremental_load_of_unchanged_snapshot_witness :
  (load_entity_incrementally sample_repr sample_md5 sample_hash sample_server
     "entity" "previous.csv" ["id"; "name"] ["id"] addition_fs 2
     (sample_store, sample_staging)).2.2
  = sample_staging.
Proof.
  apply (incremental_load_of_unchanged_snapshot sample_repr sample_md5
           sample_hash sample_server "entity" "previous.csv" ["id"; "name"]
           ["id"] addition_fs 2 sample_store sample_staging sample_state
           addition_previous).
  - reflexivity.
  - vm_compute. reflexivity.
  - vm_compute. reflexivity.
Defined.

(** The state names previous.csv, and only current.csv is there. *)
Lemma lost_snapshot_is_never_loaded_witness :
  load_entity_incrementally sample_repr sample_md5 sample_hash sample_server
    "entity" "current.csv" ["id"; "name"] ["id"]
    (<["current.csv" := addition_current]> ∅) 2 (sample_store, sample_staging)
  = (Raise DatabaseError, (sample_store, sample_staging)).
Proof.
  apply (lost_snapshot_is_never_loaded sample_repr sample_md5 sample_hash
           sample_server "entity" "current.csv" ["id"; "name"] ["id"]
           (<["current.csv" := addition_current]> ∅) 2 sample_store
           sample_staging sample_state addition_current).
  - reflexivity.
  - vm_compute. reflexivity.
  - vm_compute. reflexivity.
  - intros c Hc. exact Hc.
  - vm_compute. discriminate.
Defined.

(** The current snapshot loaded twice, starting without state. *)
Lemma first_snapshot_is_never_staged_witness :
  let first := load_entity_incrementally sample_repr sample_md5 sample_hash
                 sample_server "entity" "current.csv" ["id"; "name"] ["id"]
                 addition_fs 2 (∅, empty_staging) in
  let second := load_entity_incrementally sample_repr sample_md5 sample_hash
                  sample_server "entity" "current.csv" ["id"; "name"] ["id"]
                  addition_fs 3 first.2 in
  first.1 = Raise DatabaseError ∧
  first.2.2 = empty_staging ∧
  (∃ st, first.2.1 !! "entity" = Some st ∧
         LoadState.last_csv_path st = "current.csv" ∧
         LoadState.last_row_count st = len addition_current) ∧
  second.2.2 = empty_staging ∧
  (∀ delta, second.1 = Ok delta → DeltaResult.has_changes delta = false).
Proof.
  apply (first_snapshot_is_never_staged sample_repr sample_md5 sample_hash
           sample_server "entity" "current.csv" ["id"; "name"] ["id"]
           addition_fs 2 3 ∅ empty_staging addition_current).
  - reflexivity.
  - vm_compute. reflexivity.
  - intros c Hc. exact Hc.
  - vm_compute. discriminate.
Defined.

(** A first run on data without rows, a second on (1, A), (2, B). *)
Lemma pipeline_finds_no_change_after_first_run_witness :
  let first := run_stages
                 [delta_detection_stage sample_repr sample_md5 sample_hash
                    (λ df, df) 1;
                  staging_load_stage sample_server 1]
                 (sample_context true (empty_frame ["id"; "name"]))
                 empty_world in
  let second := run_stages
                  [delta_detection_stage sample_repr sample_md5 sample_hash
                     (λ df, df) 2;
                   staging_load_stage sample_server 2]
                  (sample_context true addition_current) first.2 in
  staging second.2 = staging first.2 ∧
  full_loads second.2 = full_loads first.2 ∧
  (Context.error second.1 = None →
   ∃ delta, Context.delta second.1 = Some delta ∧
            DeltaResult.has_changes delta = false).
Proof.
  apply (pipeline_finds_no_change_after_first_run sample_repr sample_md5
           sample_hash sample_server (λ df, df) 1 2
           (sample_context true (empty_frame ["id"; "name"]))
           (sample_context true addition_current) empty_world).
  - reflexivity.
  - reflexivity.
  - reflexivity.
  - vm_compute. reflexivity.
Defined.

(** The row (2, B) is gone from the data: the delta lists the id 2 only. *)
Lemma deletions_alone_are_not_staged_witness :
  let w' := (delta_detection_stage sample_repr sample_md5 sample_hash
               (λ df, df) 2 (sample_context true addition_previous)
               shrinking_world).2 in
  staging_load_stage sample_server 2 shrinking_context w'
  = (Ok shrinking_context, w').
Proof.
  intros w'.
  apply (deletions_alone_are_not_staged sample_repr sample_md5 sample_hash
           sample_server (λ df, df) 2 (sample_context true addition_previous)
           shrinking_world shrinking_context w' shrinking_delta).
  - vm_compute. reflexivity.
  - reflexivity.
  - reflexivity.
  - reflexivity.
Defined.

(** The data (1, A), (2, B) with delta loading switched off. *)
Lemma disabled_delta_full_load_fails_witness :
  let context := sample_context false addition_current in
  let final := run_stages
                 [delta_detection_stage sample_repr sample_md5 sample_hash
                    (λ df, df) 2;
                  staging_load_stage sample_server 2]
                 context shrinking_world in
  files final.2 = files shrinking_world ∧
  states final.2 = states shrinking_world ∧
  staging final.2 = staging shrinking_world ∧
  (len (Context.cleaned_df context) ≠ 0 →
   Context.error final.1 = Some DatabaseError ∧
   full_loads final.2 =
     (full_loads shrinking_world ++ [Context.cleaned_df context])%list) ∧
  (len (Context.cleaned_df context) = 0 →
   Context.error final.1 = Context.error context ∧ final.2 = shrinking_world).
Proof.
  intros context.
  apply (disabled_delta_full_load_fails sample_repr sample_md5 sample_hash
           sample_server (λ df, df) 2 context shrinking_world).
  reflexivity.
Defined.
